(** * mnist.py: command-line post-processing and the TF_CONFIG builder

    A shallow embedding of [parse_args] (the part after
    [parser.parse_args()]) and of [make_tf_config] from [src/mnist.py].

    Python lists are mutable objects that are passed by reference, and
    [make_tf_config] stores [opts.worker_hosts] and [opts.ps_hosts] inside
    the dictionary it builds before it assigns into one of them.  The
    embedding therefore keeps an explicit object store: a list-valued
    attribute holds a reference, and reading or assigning an element goes
    through the store.  Exceptions and the messages sent to
    [tf.logging.warn] are explicit as well. *)

From Stdlib Require Import ZArith String Ascii Lia DecimalString DecimalNat.
From stdpp Require Import base option list gmap strings.

Local Open Scope Z_scope.

(** ** Python built-ins used by the source *)

Module Py.

(** Exceptions the modelled code can raise.  [InvalidRef] is not a Python
    exception: it is the outcome of following a reference that the store
    does not hold, which no Python program can do. *)
Inductive exn := IndexError | KeyError | ValueError | InvalidRef.

Inductive result (A : Type) := Ok (a : A) | Raise (e : exn).
Arguments Ok {A} a.
Arguments Raise {A} e.

Definition loc := positive.

(** The store: list objects by reference, and the warnings logged so far
    (oldest first). *)
Record state := State { heap : gmap loc (list string); log : list string }.

Definition M (A : Type) : Type := state -> result A * state.

Definition ret {A} (a : A) : M A := fun s => (Ok a, s).

Definition bind {A B} (m : M A) (k : A -> M B) : M B :=
  fun s => match m s with
           | (Ok a, s') => k a s'
           | (Raise e, s') => (Raise e, s')
           end.

#[global] Instance M_ret : MRet M := @ret.
#[global] Instance M_bind : MBind M := fun A B k m => bind m k.

Definition lift {A} (r : result A) : M A := fun s => (r, s).

(** [str.split(sep)] for a one-character separator. *)
Fixpoint split (sep : ascii) (s : string) : list string :=
  match s with
  | EmptyString => [EmptyString]
  | String c s' =>
      if Ascii.eqb c sep then EmptyString :: split sep s'
      else match split sep s' with
           | [] => [String c EmptyString]
           | w :: ws => String c w :: ws
           end
  end.

(** Position addressed by the subscript [i] in a sequence of length [n]:
    a negative subscript counts from the end. *)
Definition norm_index (n : nat) (i : Z) : option nat :=
  if 0 <=? i then (if i <? Z.of_nat n then Some (Z.to_nat i) else None)
  else if - Z.of_nat n <=? i then Some (Z.to_nat (i + Z.of_nat n))
  else None.

(** [l[i]] on a list value. *)
Definition seq_getitem {A} (l : list A) (i : Z) : result A :=
  match norm_index (length l) i with
  | Some k => match l !! k with Some x => Ok x | None => Raise IndexError end
  | None => Raise IndexError
  end.

(** [l[i] = v] on a list value. *)
Definition seq_setitem {A} (l : list A) (i : Z) (v : A) : result (list A) :=
  match norm_index (length l) i with
  | Some k => Ok (<[k := v]> l)
  | None => Raise IndexError
  end.

(** [d[k]] on a dictionary with string keys; the key is any value that is
    [None] or a string. *)
Definition dict_getitem {V} (d : gmap string V) (k : option string) : result V :=
  match k with
  | Some s => match d !! s with Some v => Ok v | None => Raise KeyError end
  | None => Raise KeyError
  end.

(** Store operations. *)
Definition load (r : loc) : M (list string) :=
  fun s => match heap s !! r with
           | Some l => (Ok l, s)
           | None => (Raise InvalidRef, s)
           end.

Definition store (r : loc) (l : list string) : M unit :=
  fun s => (Ok tt, State (<[r := l]> (heap s)) (log s)).

(** A list display [[x, ...]] creates a new object. *)
Definition alloc (l : list string) : M loc :=
  fun s => let r := fresh (dom (heap s)) in
           (Ok r, State (<[r := l]> (heap s)) (log s)).

(** [r[i]] and [r[i] = v] through a reference. *)
Definition list_getitem (r : loc) (i : Z) : M string :=
  l ← load r; lift (seq_getitem l i).

Definition list_setitem (r : loc) (i : Z) (v : string) : M unit :=
  l ← load r; l' ← lift (seq_setitem l i v); store r l'.

(** [tf.logging.warn(msg)]. *)
Definition warn (msg : string) : M unit :=
  fun s => (Ok tt, State (heap s) (log s ++ [msg])).

(** [all(...)] and [any(...)] on a list of booleans. *)
Definition all (bs : list bool) : bool := forallb id bs.
Definition any (bs : list bool) : bool := existsb id bs.

(** Truth value of a list: empty is false. *)
Definition truthy {A} (l : list A) : bool :=
  match l with [] => false | _ :: _ => true end.

Definition is_none {A} (o : option A) : bool :=
  match o with None => true | Some _ => false end.

(** [int(s)] for a text argument of ASCII characters, base 10: surrounding
    white space (tab, line feed, vertical tab, form feed, carriage return,
    space), an optional sign, then decimal digits that may be grouped by
    single underscores.  The characters beyond ASCII that Python also takes
    for spaces or digits have no counterpart in this type of texts. *)
Definition is_space (c : ascii) : bool :=
  let n := nat_of_ascii c in
  ((9 <=? n) && (n <=? 13) || (n =? 32))%nat.

Definition digit_value (c : ascii) : option Z :=
  let n := nat_of_ascii c in
  if ((48 <=? n) && (n <=? 57))%nat then Some (Z.of_nat n - 48) else None.

Fixpoint lstrip (s : string) : string :=
  match s with
  | String c s' => if is_space c then lstrip s' else s
  | EmptyString => EmptyString
  end.

Fixpoint all_space (s : string) : bool :=
  match s with
  | String c s' => is_space c && all_space s'
  | EmptyString => true
  end.

(** [digits acc after_digit s]: [acc] is the value read so far and
    [after_digit] tells whether the previous character was a digit. *)
Fixpoint digits (acc : Z) (after_digit : bool) (s : string) : option Z :=
  match s with
  | EmptyString => if after_digit then Some acc else None
  | String c s' =>
      match digit_value c with
      | Some d => digits (10 * acc + d) true s'
      | None =>
          if after_digit then
            if Ascii.eqb c "_" then digits acc false s'
            else if all_space s then Some acc else None
          else None
      end
  end.

Definition int (s : string) : result Z :=
  let body sign t :=
    match digits 0 false t with
    | Some v => Ok (sign * v)
    | None => Raise ValueError
    end in
  match lstrip s with
  | String "-" t => body (-1) t
  | String "+" t => body 1 t
  | t => body 1 t
  end.

(** A list comprehension [[f(x) for x in l]] whose body can raise. *)
Fixpoint comprehension {A B} (f : A -> result B) (l : list A) : result (list B) :=
  match l with
  | [] => Ok []
  | x :: l' =>
      match f x with
      | Ok y => match comprehension f l' with
                | Ok ys => Ok (y :: ys)
                | Raise e => Raise e
                end
      | Raise e => Raise e
      end
  end.

(** Truth value of a text: empty is false. *)
Definition str_truthy (s : string) : bool :=
  match s with EmptyString => false | String _ _ => true end.

(** [template.format(arg)] for a template with one [{}] field. *)
Fixpoint format (template arg : string) : string :=
  match template with
  | String "{" (String "}" t) => arg +:+ t
  | String c t => String c (format t arg)
  | EmptyString => EmptyString
  end.

(** How [format] displays the values the source passes to it.  The display
    of a list quotes each element; this is exact for elements without
    quotes, backslashes or control characters. *)
Definition str_of_option (o : option string) : string :=
  match o with None => "None" | Some s => s end.

Definition repr_str (s : string) : string := "'" +:+ s +:+ "'".

Fixpoint join (sep : string) (l : list string) : string :=
  match l with
  | [] => EmptyString
  | [x] => x
  | x :: l' => x +:+ sep +:+ join sep l'
  end.

Definition str_of_list (l : list string) : string :=
  "[" +:+ join ", " (repr_str <$> l) +:+ "]".

End Py.

Import Py.

(** ** The source: [parse_args] *)

(** What [parser.parse_args()] hands back, restricted to the attributes the
    modelled code reads: the two host lists and the hidden units are still
    text at this point. *)
Record Namespace := {
  ns_job_name : option string;
  ns_task_index : Z;
  ns_ps_hosts : string;
  ns_worker_hosts : string;
  ns_hidden_units : string
}.

(** The configuration [parse_args] returns.  The host lists are list objects
    in the store; the list of hidden units, which nothing assigns into, is
    kept as a value. *)
Record Opts := {
  job_name : option string;
  task_index : Z;
  ps_hosts : loc;
  worker_hosts : loc;
  hidden_units : list Z
}.

(** The values [--job_name] accepts on the command line. *)
Definition job_name_choices : list string := ["worker"; "ps"]%string.

(** Lines 84-96. *)
Definition parse_args (ns : Namespace) : M Opts :=
  hu ← lift (comprehension int (split "," (ns_hidden_units ns)));
  wh ← (if str_truthy (ns_worker_hosts ns)
        then alloc (split "," (ns_worker_hosts ns))
        else alloc []);
  ph ← (if str_truthy (ns_ps_hosts ns)
        then alloc (split "," (ns_ps_hosts ns))
        else alloc []);
  mret {| job_name := ns_job_name ns;
          task_index := ns_task_index ns;
          ps_hosts := ph;
          worker_hosts := wh;
          hidden_units := hu |}.

(** ** The source: [make_tf_config] *)

Record Task := { type : option string; index : Z }.

Record TfConfig := {
  task : Task;
  cluster : gmap string loc;
  environment : string
}.

(** The dictionary [make_tf_config] returns: [{}] or the three-key one. *)
Inductive descriptor := Empty | Config (c : TfConfig).

Definition dq : string := String (ascii_of_nat 34) EmptyString.

Definition msg_incomplete : string :=
  "Distributed setting is incomplete. You must pass job_name, ps_hosts, and worker_hosts.".

Definition msg_job_name (j : option string) : string :=
  format "Expected job_name of worker or ps. Received {}." (str_of_option j).

Definition msg_ps_hosts (ps : list string) : string :=
  format "Expected ps_hosts, list of hostname:port pairs. Got {}. " (str_of_list ps)
  +:+ "Example: --ps_hosts " +:+ dq +:+ "localhost:2224" +:+ dq
  +:+ " or --ps_hosts " +:+ dq +:+ "localhost:2224,localhost:2225".

Definition msg_worker_hosts (ws : list string) : string :=
  format "Expected worker_hosts, list of hostname:port pairs. Got {}. " (str_of_list ws)
  +:+ "Example: --worker_hosts " +:+ dq +:+ "localhost:2222,localhost:2223" +:+ dq.

Definition msg_single_mode : string :=
  "Ignoring distributed arguments. Running single mode.".

(** [entry.split(':')[1]], line 130. *)
Definition port (entry : string) : result string :=
  seq_getitem (split ":" entry) 1.

(** Lines 99-135. *)
Definition make_tf_config (opts : Opts) : M descriptor :=
  ps ← load (ps_hosts opts);
  ws ← load (worker_hosts opts);
  let conds := [is_none (job_name opts); negb (truthy ps); negb (truthy ws)] in
  if all conds then mret Empty
  else if any conds then
    warn msg_incomplete;;
    (if is_none (job_name opts) then warn (msg_job_name (job_name opts)) else mret tt);;
    (if negb (truthy ps) then warn (msg_ps_hosts ps) else mret tt);;
    (if negb (truthy ws) then warn (msg_worker_hosts ws) else mret tt);;
    warn msg_single_mode;;
    mret Empty
  else
    w0 ← list_getitem (worker_hosts opts) 0;
    master ← alloc [w0];
    let tf_config :=
      {| task := {| type := job_name opts; index := task_index opts |};
         cluster := {[ "master" := master;
                       "worker" := worker_hosts opts;
                       "ps" := ps_hosts opts ]};
         environment := "cloud" |} in
    (* Nodes may need to refer to itself as localhost *)
    l ← lift (dict_getitem (cluster tf_config) (job_name opts));
    entry ← list_getitem l (task_index opts);
    p ← lift (port entry);
    let local_ip := "localhost:" +:+ p in
    l ← lift (dict_getitem (cluster tf_config) (job_name opts));
    list_setitem l (task_index opts) local_ip;;
    if bool_decide (job_name opts = Some "worker")
       && bool_decide (task_index opts = 0)
    then
      let tf_config :=
        {| task := {| type := Some "master"; index := index (task tf_config) |};
           cluster := cluster tf_config;
           environment := environment tf_config |} in
      m ← lift (dict_getitem (cluster tf_config) (Some "master"));
      list_setitem m 0 local_ip;;
      mret (Config tf_config)
    else mret (Config tf_config).

(** ** Vocabulary of the properties *)

(** The host lists of [opts] in the store [s] are [ps] and [ws], held by two
    different list objects. *)
Definition holds (s : state) (opts : Opts) (ps ws : list string) : Prop :=
  heap s !! ps_hosts opts = Some ps ∧
  heap s !! worker_hosts opts = Some ws ∧
  ps_hosts opts ≠ worker_hosts opts.

(** The three distributed settings, and whether each one is set. *)
Inductive field := JobName | PsHosts | WorkerHosts.

Definition field_name (f : field) : string :=
  match f with
  | JobName => "job_name"
  | PsHosts => "ps_hosts"
  | WorkerHosts => "worker_hosts"
  end.

Definition is_set (opts : Opts) (ps ws : list string) (f : field) : bool :=
  match f with
  | JobName => negb (is_none (job_name opts))
  | PsHosts => truthy ps
  | WorkerHosts => truthy ws
  end.

Definition complete (opts : Opts) (ps ws : list string) : Prop :=
  ∀ f, is_set opts ps ws f = true.

Definition unset (opts : Opts) (ps ws : list string) : Prop :=
  ∀ f, is_set opts ps ws f = false.

(** A warning that reports the setting [f] as missing. *)
Definition reports_missing (f : field) (msg : string) : Prop :=
  String.prefix ("Expected " +:+ field_name f) msg = true.

(** The contents of the list that the returned dictionary holds under
    [cluster][name], read in the store [s]. *)
Definition cluster_list (s : state) (c : TfConfig) (name : string)
  : option (list string) :=
  r ← cluster c !! name; heap s !! r.

(** The contents of the cluster lists when the dictionary of lines 116-127
    has just been built from host lists [ps] and [ws]: the master list is
    the one-element list [[ws[0]]]. *)
Definition cluster_as_built (ps ws : list string) : gmap string (list string) :=
  {[ "master" := take 1 ws; "worker" := ws; "ps" := ps ]}.

(** [l'] is [l] with the entry that the subscript [i] addresses replaced by
    its loopback form. *)
Definition rewritten_at (l l' : list string) (i : Z) : Prop :=
  ∃ k e p,
    norm_index (length l) i = Some k ∧ l !! k = Some e ∧ port e = Ok p
    ∧ l' = <[k := "localhost:" +:+ p]> l.

(** The computation [m] started in [s] ends without an exception. *)
Definition returns {A} (m : M A) (s : state) : Prop := ∃ a, (m s).1 = Ok a.

(** Whether the character [c] occurs in [s]. *)
Fixpoint contains (c : ascii) (s : string) : bool :=
  match s with
  | EmptyString => false
  | String c' s' => Ascii.eqb c' c || contains c s'
  end.

(** ** The source: start-up *)

(** Lines 222 and 234 of the script body: the arguments are parsed and the
    dictionary is built from them.  What [tf.logging.debug] prints in
    between is not a warning and is not recorded. *)
Definition TF_CONFIG (ns : Namespace) : M descriptor :=
  args ← parse_args ns;
  make_tf_config args.

(** The number of distributed settings that are not set. *)
Definition unset_count (opts : Opts) (ps ws : list string) : nat :=
  length (filter (λ f, is_set opts ps ws f = false)
            [JobName; PsHosts; WorkerHosts]).

(** The list [parse_args] makes of a host-list argument (lines 86-94). *)
Definition host_list (text : string) : list string :=
  if str_truthy text then split "," text else [].

(** Whether a distributed setting is given in the parsed arguments: a
    [job_name] other than [None], a non-empty host-list text. *)
Definition given (ns : Namespace) (f : field) : bool :=
  match f with
  | JobName => negb (is_none (ns_job_name ns))
  | PsHosts => str_truthy (ns_ps_hosts ns)
  | WorkerHosts => str_truthy (ns_worker_hosts ns)
  end.

(** ** The source: [cnn_net] *)

(** [str(i)] for a non-negative integer. *)
Definition str (i : nat) : string := NilEmpty.string_of_uint (Nat.to_uint i).

(** [tf.nn.relu], the only activation the script passes. *)
Inductive activation := relu.

(** The graph [cnn_net] builds: one constructor for each TensorFlow call of
    lines 157-163, with the arguments the call is given.  A tensor that
    comes from the caller is a [feed]; [float] is the type of
    [opts.dropout]. *)
Inductive tensor (float : Type) :=
| feed (name : string)
| reshape (t : tensor float) (shape : list Z) (name : string)
| conv2d (t : tensor float) (filters kernel_size : Z) (strides : Z * Z)
    (act : activation) (name : string)
| dropout (t : tensor float) (rate : float)
| reduce_mean (t : tensor float) (axis : list Z) (keepdims : bool)
    (name : string)
| dense (t : tensor float) (units : Z).
Arguments feed {float} name.
Arguments reshape {float} t shape name.
Arguments conv2d {float} t filters kernel_size strides act name.
Arguments dropout {float} t rate.
Arguments reduce_mean {float} t axis keepdims name.
Arguments dense {float} t units.

(** One TensorFlow call.  TensorFlow is not part of the repository and a
    call can raise (a shape that does not fit, an argument out of range):
    [rejects node] is the exception raised when the script asks for [node],
    [None] when the node is created. *)
Definition call {float} (rejects : tensor float → option exn)
    (node : tensor float) : result (tensor float) :=
  match rejects node with
  | Some e => Raise e
  | None => Ok node
  end.

(** Lines 158-161: the loop over [enumerate(hidden_units)], from index [i]
    on, with [temp] the tensor built so far.  The outcome is the last
    tensor created together with the exception that stopped the loop, if
    there was one. *)
Fixpoint conv_loop {float} (rejects : tensor float → option exn)
    (opts_kernel_size : Z) (opts_dropout : float)
    (i : nat) (hidden : list Z) (temp : tensor float)
  : tensor float * option exn :=
  match hidden with
  | [] => (temp, None)
  | n_units :: rest =>
      match call rejects (conv2d temp n_units opts_kernel_size (2, 2) relu
                            ("cnn" +:+ str i)) with
      | Raise e => (temp, Some e)
      | Ok temp =>
          match call rejects (dropout temp opts_dropout) with
          | Raise e => (temp, Some e)
          | Ok temp => conv_loop rejects opts_kernel_size opts_dropout
                         (S i) rest temp
          end
      end
  end.

(** Lines 155-163.  [opts.kernel_size] and [opts.dropout], which the record
    [Opts] above does not carry, are passed beside it.  The outcome is the
    tensor returned, or the last tensor created and the exception. *)
Definition cnn_net {float} (rejects : tensor float → option exn)
    (input_tensor : tensor float) (opts : Opts)
    (opts_kernel_size : Z) (opts_dropout : float)
  : tensor float * option exn :=
  match call rejects (reshape input_tensor [-1; 28; 28; 1] "input_image") with
  | Raise e => (input_tensor, Some e)
  | Ok temp =>
      match conv_loop rejects opts_kernel_size opts_dropout 0
              (hidden_units opts) temp with
      | (temp, Some e) => (temp, Some e)
      | (temp, None) =>
          match call rejects (reduce_mean temp [2; 3] false "average") with
          | Raise e => (temp, Some e)
          | Ok temp =>
              match call rejects (dense temp 10) with
              | Raise e => (temp, Some e)
              | Ok logits => (logits, None)
              end
          end
      end
  end.

(** The convolutions [cnn_net] asks for, in the order of [hidden]: number
    of filters, kernel size and name. *)
Definition conv_specs (opts_kernel_size : Z) (hidden : list Z)
  : list (Z * Z * string) :=
  imap (λ i n_units, (n_units, opts_kernel_size, "cnn" +:+ str i)) hidden.

(** The convolutions of a graph, the one nearest to the input first, each
    with its number of filters, its kernel size and its name. *)
Fixpoint convolutions {float} (t : tensor float) : list (Z * Z * string) :=
  match t with
  | feed _ => []
  | reshape t _ _ => convolutions t
  | conv2d t filters kernel_size _ _ name =>
      convolutions t ++ [(filters, kernel_size, name)]
  | dropout t _ => convolutions t
  | reduce_mean t _ _ _ => convolutions t
  | dense t _ => convolutions t
  end.

(** ** Auxiliary definitions for the proofs *)

(** The list object that [cluster][j] names once the dictionary is built,
    and its contents; [m] is the new master list. *)
Definition role (opts : Opts) (m : loc) (ps ws : list string) (j : string)
  : option (loc * list string) :=
  if decide (j = "master") then Some (m, take 1 ws)
  else if decide (j = "worker") then Some (worker_hosts opts, ws)
  else if decide (j = "ps") then Some (ps_hosts opts, ps)
  else None.

(** The dictionary of lines 116-127 with master list [m], and the same
    dictionary after line 133. *)
Definition built (opts : Opts) (m : loc) : TfConfig :=
  {| task := {| type := job_name opts; index := task_index opts |};
     cluster := {[ "master" := m;
                   "worker" := worker_hosts opts;
                   "ps" := ps_hosts opts ]};
     environment := "cloud" |}.

Definition promoted (c : TfConfig) : TfConfig :=
  {| task := {| type := Some "master"; index := index (task c) |};
     cluster := cluster c;
     environment := environment c |}.

(** The warnings of lines 104-113, in the order they are logged. *)
Definition warnings (o : Opts) (ps ws : list string) : list string :=
  [msg_incomplete]
  ++ (if is_none (job_name o) then [msg_job_name (job_name o)] else [])
  ++ (if negb (truthy ps) then [msg_ps_hosts ps] else [])
  ++ (if negb (truthy ws) then [msg_worker_hosts ws] else [])
  ++ [msg_single_mode].

(** ** Sample configurations

    Two workers and one parameter server, as [parse_args] leaves them when
    it starts from an empty store. *)

Definition sample_ns : Namespace :=
  {| ns_job_name := Some "worker";
     ns_task_index := 0;
     ns_ps_hosts := "h3:2224";
     ns_worker_hosts := "h1:2222,h2:2222";
     ns_hidden_units := "32,64" |}.

Definition sample_store (ps ws : list string) : state :=
  State {[ 1%positive := ws; 2%positive := ps ]} [].

Definition sample_opts (j : option string) (i : Z) : Opts :=
  {| job_name := j; task_index := i;
     ps_hosts := 2%positive; worker_hosts := 1%positive;
     hidden_units := [32; 64] |}.

Definition sample_ps : list string := ["h3:2224"].
Definition sample_ws : list string := ["h1:2222"; "h2:2222"].

(** The store and the dictionary after the call for the first worker. *)
Definition sample_after : state :=
  State {[ 1%positive := ["localhost:2222"; "h2:2222"];
           2%positive := ["h3:2224"];
           3%positive := ["localhost:2222"] ]} [].

Definition sample_config : TfConfig :=
  promoted (built (sample_opts (Some "worker") 0) 3%positive).

(** ** Proof automation *)

Ltac pick_warning :=
  let try_at tac :=
    (split; [tac; apply list_elem_of_here | vm_compute; reflexivity]) in
  eexists;
  first [ try_at idtac
        | try_at ltac:(apply list_elem_of_further)
        | try_at ltac:(do 2 apply list_elem_of_further)
        | try_at ltac:(do 3 apply list_elem_of_further) ].

Ltac no_warning H :=
  repeat (apply elem_of_cons in H as [->|H]);
  try (by apply elem_of_nil in H).

(** ** Running the monad *)

Lemma run_bind {A B} (m : M A) (k : A → M B) s :
  (m ≫= k) s = match m s with
               | (Ok a, s') => k a s'
               | (Raise e, s') => (Raise e, s')
               end.
Proof. reflexivity. Qed.

Lemma run_load r l s : heap s !! r = Some l → load r s = (Ok l, s).
Proof. intros H. unfold load. by rewrite H. Qed.

Lemma seq_getitem_pos {A} (l : list A) (i : nat) :
  seq_getitem l (Z.of_nat i) =
  match l !! i with Some x => Ok x | None => Raise IndexError end.
Proof.
  unfold seq_getitem, norm_index.
  destruct (Z.leb_spec 0 (Z.of_nat i)); [|lia].
  destruct (Z.ltb_spec (Z.of_nat i) (Z.of_nat (length l))).
  - by rewrite Nat2Z.id.
  - rewrite (lookup_ge_None_2 l i); [done|lia].
Qed.

Lemma seq_getitem_head {A} (x : A) l : seq_getitem (x :: l) 0 = Ok x.
Proof. reflexivity. Qed.

Lemma norm_index_lt n i k : norm_index n i = Some k → (k < n)%nat.
Proof.
  unfold norm_index. intros H.
  destruct (Z.leb_spec 0 i).
  - destruct (Z.ltb_spec i (Z.of_nat n)); simplify_eq. lia.
  - destruct (Z.leb_spec (- Z.of_nat n) i); simplify_eq. lia.
Qed.

Lemma seq_getitem_norm {A} (l : list A) i :
  seq_getitem l i =
  match norm_index (length l) i ≫= (l !!.) with
  | Some x => Ok x
  | None => Raise IndexError
  end.
Proof.
  unfold seq_getitem. destruct (norm_index _ _) as [k|]; [|done]. done.
Qed.

(** ** The complete branch, step by step *)

Lemma built_lookup o m ps ws j :
  cluster (built o m) !! j = fst <$> role o m ps ws j.
Proof.
  unfold role, built; cbn [cluster].
  destruct (decide (j = "master")) as [->|?]; [by rewrite lookup_insert_eq|].
  rewrite lookup_insert_ne by done.
  destruct (decide (j = "worker")) as [->|?]; [by rewrite lookup_insert_eq|].
  rewrite lookup_insert_ne by done.
  destruct (decide (j = "ps")) as [->|?]; [by rewrite lookup_singleton_eq|].
  by rewrite lookup_singleton_ne.
Qed.

Lemma role_heap o s ps ws j r l :
  holds s o ps ws →
  let m := fresh (dom (heap s)) in
  role o m ps ws j = Some (r, l) →
  (<[m := take 1 ws]> (heap s)) !! r = Some l.
Proof.
  intros (Hps & Hws & Hne) m. unfold role.
  assert (heap s !! m = None) as Hm
    by (apply not_elem_of_dom, is_fresh).
  repeat case_decide; intros ?; simplify_eq.
  - by rewrite lookup_insert_eq.
  - rewrite lookup_insert_ne; [done|congruence].
  - rewrite lookup_insert_ne; [done|congruence].
Qed.

Lemma role_master o s ps ws j r l :
  holds s o ps ws →
  role o (fresh (dom (heap s))) ps ws j = Some (r, l) →
  j ≠ "master" → r ≠ fresh (dom (heap s)).
Proof.
  intros (Hps & Hws & Hne). unfold role.
  assert (heap s !! fresh (dom (heap s)) = None) as Hm
    by (apply not_elem_of_dom, is_fresh).
  repeat case_decide; intros ??; simplify_eq; congruence.
Qed.

Lemma make_tf_config_complete o s ps ws j :
  holds s o ps ws → job_name o = Some j → ps ≠ [] → ws ≠ [] →
  let m := fresh (dom (heap s)) in
  let s1 := State (<[m := take 1 ws]> (heap s)) (log s) in
  make_tf_config o s =
  match role o m ps ws j with
  | None => (Raise KeyError, s1)
  | Some (r, l) =>
      match norm_index (length l) (task_index o) with
      | None => (Raise IndexError, s1)
      | Some k =>
          match l !! k with
          | None => (Raise IndexError, s1)
          | Some e =>
              match port e with
              | Raise x => (Raise x, s1)
              | Ok p =>
                  let ip := "localhost:" +:+ p in
                  let h2 := <[r := <[k := ip]> l]> (heap s1) in
                  if bool_decide (j = "worker") && bool_decide (task_index o = 0)
                  then (Ok (Config (promoted (built o m))),
                        State (<[m := [ip]]> h2) (log s))
                  else (Ok (Config (built o m)), State h2 (log s))
              end
          end
      end
  end.
Proof.
  intros Hh Hj Hpsne Hwsne m s1.
  pose proof Hh as (Hps & Hws & Hne).
  destruct ps as [|p0 ps']; [done|]. destruct ws as [|w0 ws']; [done|].
  unfold make_tf_config.
  rewrite run_bind, (run_load _ _ _ Hps), run_bind, (run_load _ _ _ Hws).
  rewrite Hj. cbn [is_none truthy negb all any forallb existsb id andb orb].
  rewrite run_bind. unfold list_getitem at 1.
  rewrite run_bind, (run_load _ _ _ Hws).
  cbn [lift]. rewrite seq_getitem_head.
  rewrite run_bind. cbn [alloc]. fold m. cbn zeta. rewrite <- Hj.
  fold (built o m).
  change (State (<[m:=[w0]]> (heap s)) (log s)) with s1.
  rewrite run_bind. cbn [lift].
  rewrite Hj. unfold dict_getitem. rewrite (built_lookup o m (p0 :: ps') (w0 :: ws') j).
  destruct (role o m (p0 :: ps') (w0 :: ws') j) as [[r l]|] eqn:Hrole; [|done].
  pose proof (role_heap _ _ _ _ _ _ _ Hh Hrole) as Hr. fold m in Hr.
  cbn [fmap option_fmap option_map fst].
  rewrite run_bind. unfold list_getitem. rewrite run_bind.
  rewrite (run_load r l s1) by done. cbn [lift]. unfold seq_getitem at 1.
  destruct (norm_index (length l) (task_index o)) as [k|] eqn:Hk; [|done].
  destruct (l !! k) as [e|] eqn:He; [|done].
  rewrite run_bind. cbn [lift].
  destruct (port e) as [p|x]; [|done].
  rewrite run_bind. cbn [lift fmap option_fmap option_map fst].
  rewrite run_bind. unfold list_setitem at 1.
  rewrite run_bind, (run_load r l s1) by done.
  rewrite run_bind. unfold seq_setitem. rewrite Hk. cbn [lift store].
  rewrite <- Hj.
  destruct (bool_decide (job_name o = Some "worker") && bool_decide (task_index o = 0))
    eqn:Hb.
  - apply andb_prop in Hb as [Hw H0]. apply bool_decide_eq_true in Hw, H0.
    assert (j = "worker") as -> by congruence.
    rewrite bool_decide_eq_true_2 by done. rewrite bool_decide_eq_true_2 by done.
    cbn [andb]. rewrite run_bind. cbn [lift promoted cluster].
    rewrite (built_lookup o m (p0 :: ps') (w0 :: ws') "master").
    unfold role at 1. rewrite decide_True by done.
    cbn [fmap option_fmap option_map fst].
    rewrite run_bind. unfold list_setitem. rewrite run_bind.
    assert (r ≠ m) as Hrm by (eapply role_master; eauto; done).
    erewrite run_load; last first.
    { cbn [heap]. rewrite lookup_insert_ne by done. apply lookup_insert_eq. }
    rewrite run_bind. cbn. reflexivity.
  - assert (bool_decide (j = "worker")
            = bool_decide (job_name o = Some "worker")) as ->
      by (apply bool_decide_ext; rewrite Hj; split; congruence).
    by rewrite Hb.
Qed.

(** ** The other two branches *)

Lemma complete_inv o ps ws :
  complete o ps ws → (∃ j, job_name o = Some j) ∧ ps ≠ [] ∧ ws ≠ [].
Proof.
  intros H. pose proof (H JobName) as Hj. pose proof (H PsHosts) as Hp.
  pose proof (H WorkerHosts) as Hw. cbn in Hj, Hp, Hw.
  destruct (job_name o); [|done]. destruct ps; [done|]. destruct ws; [done|].
  eauto.
Qed.

Lemma complete_intro o ps ws j :
  job_name o = Some j → ps ≠ [] → ws ≠ [] → complete o ps ws.
Proof.
  intros Hj Hp Hw [| |]; cbn; [by rewrite Hj|by destruct ps|by destruct ws].
Qed.

Lemma unset_inv o ps ws :
  unset o ps ws → job_name o = None ∧ ps = [] ∧ ws = [].
Proof.
  intros H. pose proof (H JobName) as Hj. pose proof (H PsHosts) as Hp.
  pose proof (H WorkerHosts) as Hw. cbn in Hj, Hp, Hw.
  destruct (job_name o); [done|]. destruct ps; [|done]. by destruct ws.
Qed.

Lemma make_tf_config_unset o s :
  heap s !! ps_hosts o = Some [] → heap s !! worker_hosts o = Some [] →
  job_name o = None →
  make_tf_config o s = (Ok Empty, s).
Proof.
  intros Hps Hws Hj. unfold make_tf_config.
  rewrite run_bind, (run_load _ _ _ Hps), run_bind, (run_load _ _ _ Hws).
  by rewrite Hj.
Qed.

Lemma make_tf_config_incomplete o s ps ws :
  heap s !! ps_hosts o = Some ps → heap s !! worker_hosts o = Some ws →
  ¬ complete o ps ws → ¬ unset o ps ws →
  make_tf_config o s = (Ok Empty, State (heap s) (log s ++ warnings o ps ws)).
Proof.
  intros Hps Hws Hc Hu. unfold make_tf_config, warnings.
  rewrite run_bind, (run_load _ _ _ Hps), run_bind, (run_load _ _ _ Hws).
  destruct (job_name o) as [j|] eqn:Hj, ps as [|p0 ps'], ws as [|w0 ws'];
    try (exfalso; apply Hc; by eapply complete_intro);
    try (exfalso; apply Hu; intros [| |]; cbn; by rewrite ?Hj);
    cbn [is_none truthy negb all any forallb existsb id andb orb];
    unfold mbind, M_bind, bind, warn, mret, M_ret, ret; cbn [heap log];
    by rewrite <- ?app_assoc.
Qed.

(** ** The sample configurations are well formed *)

Lemma sample_holds j i ps ws : holds (sample_store ps ws) (sample_opts j i) ps ws.
Proof. done. Qed.

Lemma parse_args_sample :
  parse_args sample_ns (State ∅ [])
  = (Ok (sample_opts (Some "worker") 0),
     sample_store ["h3:2224"] ["h1:2222"; "h2:2222"]).
Proof. vm_compute. reflexivity. Qed.

(** ** Properties of [make_tf_config] *)

(** C6: with [job_name] [None] and both host lists empty, [make_tf_config]
    returns the empty dictionary, logs no warning and leaves the store as
    it was. *)
Theorem unset_returns_empty_silently o s :
  job_name o = None →
  holds s o [] [] →
  make_tf_config o s = (Ok Empty, s).
Proof.
  intros Hj (Hps & Hws & _). by apply make_tf_config_unset.
Qed.

Lemma unset_returns_empty_silently_witness :
  make_tf_config (sample_opts None 0) (sample_store [] [])
  = (Ok Empty, sample_store [] []).
Proof.
  apply (unset_returns_empty_silently (sample_opts None 0) (sample_store [] [])).
  - reflexivity.
  - apply sample_holds.
Defined.

Lemma warnings_report o ps ws f :
  (∃ msg, msg ∈ warnings o ps ws ∧ reports_missing f msg)
  ↔ is_set o ps ws f = false.
Proof.
  unfold warnings, reports_missing.
  destruct o as [[j|] i ph wh hu], ps as [|p0 ps'], ws as [|w0 ws'], f;
    cbn [job_name is_set is_none truthy negb app];
    (split; [intros (msg & Hin & Hp) | intros Hs]);
    try done.
  all: try (no_warning Hin; vm_compute in Hp; done).
  all: try (exfalso; no_warning Hin; vm_compute in Hp; done).
  all: pick_warning.
Qed.

(** C4: when at least one but not all of [job_name], [ps_hosts] and
    [worker_hosts] is set, [make_tf_config] returns the empty dictionary and
    logs at least one warning, and for each setting there is a warning
    reporting it as missing exactly when it is not set. *)
Theorem incomplete_returns_empty_and_warns o s ps ws :
  holds s o ps ws →
  ¬ unset o ps ws → ¬ complete o ps ws →
  ∃ msgs,
    make_tf_config o s = (Ok Empty, State (heap s) (log s ++ msgs))
    ∧ (1 ≤ length msgs)%nat
    ∧ ∀ f, (∃ msg, msg ∈ msgs ∧ reports_missing f msg)
           ↔ is_set o ps ws f = false.
Proof.
  intros (Hps & Hws & _) Hu Hc. exists (warnings o ps ws). split; [|split].
  - by apply make_tf_config_incomplete.
  - unfold warnings. cbn [app length]. lia.
  - apply warnings_report.
Qed.

Lemma incomplete_returns_empty_and_warns_witness :
  ∃ msgs,
    make_tf_config (sample_opts None 0) (sample_store ["h3:2224"] [])
    = (Ok Empty,
       State (heap (sample_store ["h3:2224"] []))
             (log (sample_store ["h3:2224"] []) ++ msgs))
    ∧ (1 ≤ length msgs)%nat
    ∧ ∀ f, (∃ msg, msg ∈ msgs ∧ reports_missing f msg)
           ↔ is_set (sample_opts None 0) ["h3:2224"] [] f = false.
Proof.
  apply (incomplete_returns_empty_and_warns
           (sample_opts None 0) (sample_store ["h3:2224"] [])).
  - apply sample_holds.
  - intros H. specialize (H PsHosts). discriminate H.
  - intros H. specialize (H JobName). discriminate H.
Defined.

(** C5: for a complete triple ([job_name] set, both host lists non-empty)
    [make_tf_config] never returns the empty dictionary. *)
Theorem complete_never_returns_empty o s ps ws :
  holds s o ps ws →
  complete o ps ws →
  (make_tf_config o s).1 ≠ Ok Empty.
Proof.
  intros Hh Hc. destruct (complete_inv _ _ _ Hc) as ([j Hj] & Hp & Hw).
  rewrite (make_tf_config_complete o s ps ws j) by done.
  repeat case_match; done.
Qed.

Lemma complete_never_returns_empty_witness :
  (make_tf_config (sample_opts (Some "worker") 0)
     (sample_store ["h3:2224"] ["h1:2222"; "h2:2222"])).1 ≠ Ok Empty.
Proof.
  apply (complete_never_returns_empty _ _ ["h3:2224"] ["h1:2222"; "h2:2222"]).
  - apply sample_holds.
  - intros [| |]; reflexivity.
Defined.

(** ** What a returned dictionary looks like *)

Lemma as_built_lookup o m ps ws j :
  cluster_as_built ps ws !! j = snd <$> role o m ps ws j.
Proof.
  unfold role, cluster_as_built.
  destruct (decide (j = "master")) as [->|?]; [by rewrite lookup_insert_eq|].
  rewrite lookup_insert_ne by done.
  destruct (decide (j = "worker")) as [->|?]; [by rewrite lookup_insert_eq|].
  rewrite lookup_insert_ne by done.
  destruct (decide (j = "ps")) as [->|?]; [by rewrite lookup_singleton_eq|].
  by rewrite lookup_singleton_ne.
Qed.

Lemma role_inj o s ps ws j1 j2 r l1 l2 :
  holds s o ps ws →
  role o (fresh (dom (heap s))) ps ws j1 = Some (r, l1) →
  role o (fresh (dom (heap s))) ps ws j2 = Some (r, l2) →
  j1 = j2.
Proof.
  intros (Hps & Hws & Hne). unfold role.
  assert (heap s !! fresh (dom (heap s)) = None) as Hm
    by (apply not_elem_of_dom, is_fresh).
  repeat case_decide; intros ??; simplify_eq; congruence.
Qed.

Lemma make_tf_config_returns o s ps ws j d s' :
  holds s o ps ws → job_name o = Some j → ps ≠ [] → ws ≠ [] →
  make_tf_config o s = (Ok d, s') →
  let m := fresh (dom (heap s)) in
  ∃ r l k e p,
    role o m ps ws j = Some (r, l)
    ∧ norm_index (length l) (task_index o) = Some k
    ∧ l !! k = Some e
    ∧ port e = Ok p
    ∧ log s' = log s
    ∧ let ip := "localhost:" +:+ p in
      let h2 := <[r := <[k := ip]> l]> (<[m := take 1 ws]> (heap s)) in
      (j = "worker" ∧ task_index o = 0
       ∧ d = Config (promoted (built o m)) ∧ heap s' = <[m := [ip]]> h2)
      ∨ (¬ (j = "worker" ∧ task_index o = 0)
         ∧ d = Config (built o m) ∧ heap s' = h2).
Proof.
  intros Hh Hj Hp Hw Hrun m.
  rewrite (make_tf_config_complete o s ps ws j) in Hrun by done.
  fold m in Hrun. cbn zeta in Hrun.
  destruct (role o m ps ws j) as [[r l]|] eqn:Hr; [|done].
  destruct (norm_index _ _) as [k|] eqn:Hk; [|done].
  destruct (l !! k) as [e|] eqn:He; [|done].
  destruct (port e) as [p|] eqn:Hport; [|done].
  exists r, l, k, e, p. do 4 (split; [done|]).
  destruct (bool_decide (j = "worker") && bool_decide (task_index o = 0)) eqn:Hb.
  - apply andb_prop in Hb as [Hb1 Hb2].
    apply bool_decide_eq_true in Hb1, Hb2. simplify_eq. cbn. eauto 10.
  - apply andb_false_iff in Hb. simplify_eq. cbn. split; [done|]. right.
    split; [|done]. intros [??].
    destruct Hb as [Hb|Hb]; apply bool_decide_eq_false in Hb; done.
Qed.

Lemma norm_index_0 n k : norm_index n 0 = Some k → k = 0%nat.
Proof.
  unfold norm_index. cbn. destruct (0 <? Z.of_nat n); by intros [= <-].
Qed.

Lemma cluster_list_master o m s c :
  cluster c = cluster (built o m) →
  cluster_list s c "master" = heap s !! m.
Proof. intros Hc. unfold cluster_list. by rewrite Hc. Qed.

(** C1 as the code has it: for a complete triple the returned dictionary
    has task type ['master'] exactly when [job_name] is ['worker'] and
    [task_index] is 0, or [job_name] is ['master'] itself; when [job_name]
    is ['worker'] and [task_index] is 0, entry 0 of the master list is
    ['localhost:'] followed by the port of the original [worker_hosts[0]];
    in every other case the task type is [job_name]. *)
Theorem master_iff_first_worker o s ps ws j d s' :
  holds s o ps ws → complete o ps ws →
  job_name o = Some j →
  make_tf_config o s = (Ok d, s') →
  ∃ c, d = Config c
    ∧ (type (task c) = Some "master"
       ↔ (j = "worker" ∧ task_index o = 0) ∨ j = "master")
    ∧ (j = "worker" ∧ task_index o = 0 →
         ∃ e p, ws !! 0%nat = Some e ∧ port e = Ok p
           ∧ cluster_list s' c "master" ≫= (.!! 0%nat)
             = Some ("localhost:" +:+ p))
    ∧ (¬ (j = "worker" ∧ task_index o = 0) → type (task c) = job_name o).
Proof.
  intros Hh Hc Hj Hrun.
  destruct (complete_inv _ _ _ Hc) as (_ & Hp & Hw).
  destruct (make_tf_config_returns _ _ _ _ _ _ _ Hh Hj Hp Hw Hrun)
    as (r & l & k & e & p & Hr & Hk & He & Hport & _ & Hcase).
  cbn zeta in Hcase.
  destruct Hcase as [(-> & H0 & -> & Hheap)|(Hn & -> & Hheap)].
  - eexists; split; [done|]. split; [by split; [left|]|].
    split; [|by intros []].
    intros _. rewrite H0 in Hk.
    unfold role in Hr. rewrite decide_False, decide_True in Hr by done.
    simplify_eq. apply norm_index_0 in Hk as ->.
    exists e, p. split; [done|]. split; [done|].
    rewrite (cluster_list_master o (fresh (dom (heap s)))) by done.
    by rewrite Hheap, lookup_insert_eq.
  - eexists; split; [done|]. cbn [built task type]. split; [|split; [done|]].
    + rewrite Hj. split; [intros [= ->]; by right|].
      intros [Hx | ->]; [by destruct Hn|done].
    + intros _. by rewrite Hj.
Qed.

Lemma sample_complete j i : complete (sample_opts (Some j) i) sample_ps sample_ws.
Proof. by intros [| |]. Qed.

Lemma sample_run :
  make_tf_config (sample_opts (Some "worker") 0) (sample_store sample_ps sample_ws)
  = (Ok (Config sample_config), sample_after).
Proof. vm_compute. reflexivity. Qed.

Lemma master_iff_first_worker_witness :
  let o := sample_opts (Some "worker") 0 in
  let s := sample_store sample_ps sample_ws in
  (holds s o sample_ps sample_ws ∧ complete o sample_ps sample_ws
   ∧ job_name o = Some "worker"
   ∧ make_tf_config o s = (Ok (Config sample_config), sample_after))
  ∧ ∃ c, Config sample_config = Config c
    ∧ (type (task c) = Some "master"
       ↔ ("worker" = "worker" ∧ task_index o = 0) ∨ "worker" = "master")
    ∧ ("worker" = "worker" ∧ task_index o = 0 →
         ∃ e p, sample_ws !! 0%nat = Some e ∧ port e = Ok p
           ∧ cluster_list sample_after c "master" ≫= (.!! 0%nat)
             = Some ("localhost:" +:+ p))
    ∧ (¬ ("worker" = "worker" ∧ task_index o = 0) → type (task c) = job_name o).
Proof.
  intros o s.
  assert (holds s o sample_ps sample_ws) as H1 by apply sample_holds.
  assert (complete o sample_ps sample_ws) as H2 by apply sample_complete.
  assert (job_name o = Some "worker") as H3 by reflexivity.
  assert (make_tf_config o s = (Ok (Config sample_config), sample_after)) as H5
    by apply sample_run.
  split; [done|].
  exact (master_iff_first_worker o s sample_ps sample_ws "worker" _ _
           H1 H2 H3 H5).
Defined.

(** C1 as stated fails: with [job_name] ['master'], which [--job_name] does
    not accept but the [JOB_NAME] default is not checked against, the task
    type is ['master'] although the node is not worker 0. *)
Lemma master_without_first_worker :
  let o := sample_opts (Some "master") 0 in
  let s := sample_store sample_ps sample_ws in
  let c := built o 3%positive in
  let s' := State {[ 1%positive := ["h1:2222"; "h2:2222"];
                     2%positive := ["h3:2224"];
                     3%positive := ["localhost:2222"] ]} [] in
  holds s o ["h3:2224"] ["h1:2222"; "h2:2222"]
  ∧ complete o ["h3:2224"] ["h1:2222"; "h2:2222"]
  ∧ make_tf_config o s = (Ok (Config c), s')
  ∧ type (task c) = Some "master"
  ∧ ¬ (job_name o = Some "worker" ∧ task_index o = 0)
  ∧ ¬ (type (task c) = Some "master"
       ↔ job_name o = Some "worker" ∧ task_index o = 0).
Proof.
  cbn zeta. split; [apply sample_holds|]. split; [apply sample_complete|].
  split; [vm_compute; reflexivity|]. split; [reflexivity|].
  split; [by intros [? _]|]. intros [H _]. by destruct H.
Qed.

(** The lists behind a returned dictionary: the one named by [job_name] has
    its own entry rewritten, and the other non-master lists are as built. *)
Lemma make_tf_config_lists o s ps ws j d s' :
  holds s o ps ws → job_name o = Some j → ps ≠ [] → ws ≠ [] →
  make_tf_config o s = (Ok d, s') →
  let m := fresh (dom (heap s)) in
  ∃ c r l k e p,
    d = Config c
    ∧ cluster c = cluster (built o m)
    ∧ role o m ps ws j = Some (r, l)
    ∧ norm_index (length l) (task_index o) = Some k
    ∧ l !! k = Some e
    ∧ port e = Ok p
    ∧ heap s' !! r = Some (<[k := "localhost:" +:+ p]> l)
    ∧ ∀ name r0 l0,
        name ≠ "master" → name ≠ j →
        role o m ps ws name = Some (r0, l0) → heap s' !! r0 = Some l0.
Proof.
  intros Hh Hj Hp Hw Hrun m.
  destruct (make_tf_config_returns _ _ _ _ _ _ _ Hh Hj Hp Hw Hrun)
    as (r & l & k & e & p & Hr & Hk & He & Hport & _ & Hcase).
  fold m in Hr. cbn zeta in Hcase. fold m in Hcase.
  assert (∀ name r0 l0, name ≠ j →
            role o m ps ws name = Some (r0, l0) → r0 ≠ r) as Hother.
  { intros name r0 l0 Hne Hr0 ->. apply Hne. by eapply role_inj. }
  assert (∀ name r0 l0, name ≠ "master" →
            role o m ps ws name = Some (r0, l0) → r0 ≠ m) as Hnm.
  { intros name r0 l0 Hne Hr0. by eapply role_master. }
  destruct Hcase as [(-> & H0 & -> & Hheap)|(Hn & -> & Hheap)];
    eexists _, r, l, k, e, p; (do 6 (split; [done|])); rewrite Hheap; split.
  - rewrite lookup_insert_ne; [apply lookup_insert_eq|].
    intros Hmr. by apply (Hnm "worker" r l).
  - intros name r0 l0 Hn1 Hn2 Hr0.
    rewrite lookup_insert_ne by (intros Hx; by apply (Hnm name r0 l0)).
    rewrite lookup_insert_ne by (intros Hx; by apply (Hother name r0 l0)).
    by eapply role_heap.
  - apply lookup_insert_eq.
  - intros name r0 l0 Hn1 Hn2 Hr0.
    rewrite lookup_insert_ne by (intros Hx; by apply (Hother name r0 l0)).
    by eapply role_heap.
Qed.

Lemma cluster_list_role o m ps ws s c name :
  cluster c = cluster (built o m) →
  cluster_list s c name = role o m ps ws name ≫= λ rl, heap s !! rl.1.
Proof.
  intros Hc. unfold cluster_list.
  rewrite Hc, (built_lookup o m ps ws). by destruct (role _ _ _ _ _).
Qed.



(** C8: for [job_name='worker'], [task_index=0],
    [worker_hosts=['h1:2222','h2:2222']] and [ps_hosts=['h3:2224']],
    [make_tf_config] returns a dictionary whose task type is ['master'],
    whose [cluster.master] is [['localhost:2222']] and whose
    [cluster.worker] is [['localhost:2222','h2:2222']]. *)
Theorem example_first_worker o s :
  holds s o ["h3:2224"] ["h1:2222"; "h2:2222"] →
  job_name o = Some "worker" → task_index o = 0 →
  ∃ c s',
    make_tf_config o s = (Ok (Config c), s')
    ∧ type (task c) = Some "master"
    ∧ cluster_list s' c "master" = Some ["localhost:2222"]
    ∧ cluster_list s' c "worker" = Some ["localhost:2222"; "h2:2222"].
Proof.
  intros Hh Hj Hi.
  pose proof (make_tf_config_complete o s _ _ "worker" Hh Hj) as Hrun.
  cbn zeta in Hrun. rewrite Hi in Hrun.
  set (m := fresh (dom (heap s))) in *.
  assert (role o m ["h3:2224"] ["h1:2222"; "h2:2222"] "worker"
          = Some (worker_hosts o, ["h1:2222"; "h2:2222"])) as Hr by done.
  rewrite Hr in Hrun. cbn in Hrun. specialize (Hrun ltac:(done) ltac:(done)).
  eexists _, _. split; [exact Hrun|]. split; [done|].
  assert (worker_hosts o ≠ m) as Hwm.
  { eapply role_master; [exact Hh|exact Hr|done]. }
  split.
  - rewrite (cluster_list_master o m) by done. cbn [heap].
    apply lookup_insert_eq.
  - rewrite (cluster_list_role o m ["h3:2224"] ["h1:2222"; "h2:2222"]), Hr by done.
    cbn. rewrite lookup_insert_ne by done. apply lookup_insert_eq.
Qed.

Lemma example_first_worker_witness :
  let o := sample_opts (Some "worker") 0 in
  let s := sample_store sample_ps sample_ws in
  (holds s o ["h3:2224"] ["h1:2222"; "h2:2222"]
   ∧ job_name o = Some "worker" ∧ task_index o = 0)
  ∧ ∃ c s',
    make_tf_config o s = (Ok (Config c), s')
    ∧ type (task c) = Some "master"
    ∧ cluster_list s' c "master" = Some ["localhost:2222"]
    ∧ cluster_list s' c "worker" = Some ["localhost:2222"; "h2:2222"].
Proof.
  intros o s.
  assert (holds s o ["h3:2224"] ["h1:2222"; "h2:2222"]) as H1
    by apply sample_holds.
  assert (job_name o = Some "worker") as H2 by reflexivity.
  assert (task_index o = 0) as H3 by reflexivity.
  split; [done|]. exact (example_first_worker o s H1 H2 H3).
Defined.

(** C10: every non-empty dictionary that [make_tf_config] returns has an
    ['environment'] entry, and its value is the text ['cloud']. *)
Theorem environment_is_cloud o s c s' :
  make_tf_config o s = (Ok (Config c), s') → environment c = "cloud".
Proof.
  unfold make_tf_config. rewrite !run_bind. intros H.
  destruct (load (ps_hosts o) s) as [[ps|] s1]; [|done].
  rewrite run_bind in H.
  destruct (load (worker_hosts o) s1) as [[ws|] s2]; [|done].
  destruct (all _); [done|].
  destruct (any _).
  { unfold mbind, M_bind, bind, warn, mret, M_ret, ret in H.
    repeat case_match; by simplify_eq. }
  rewrite run_bind in H.
  destruct (list_getitem (worker_hosts o) 0 s2) as [[w0|] s3]; [|done].
  rewrite run_bind in H.
  destruct (alloc [w0] s3) as [[m|] s4]; [|done].
  cbn zeta in H. unfold list_getitem, list_setitem in H.
  unfold mbind, M_bind, bind, lift, load, store, mret, M_ret, ret in H.
  repeat case_match; by simplify_eq.
Qed.

Lemma environment_is_cloud_witness :
  make_tf_config (sample_opts (Some "worker") 0) (sample_store sample_ps sample_ws)
  = (Ok (Config sample_config), sample_after)
  ∧ environment sample_config = "cloud".
Proof.
  split; [apply sample_run|].
  exact (environment_is_cloud _ _ _ _ sample_run).
Defined.

(** ** Effect on the configuration *)

Lemma make_tf_config_raises o s ps ws j x s' :
  holds s o ps ws → job_name o = Some j → ps ≠ [] → ws ≠ [] →
  make_tf_config o s = (Raise x, s') →
  s' = State (<[fresh (dom (heap s)) := take 1 ws]> (heap s)) (log s).
Proof.
  intros Hh Hj Hp Hw Hrun.
  rewrite (make_tf_config_complete o s ps ws j) in Hrun by done.
  cbn zeta in Hrun. repeat case_match; by simplify_eq.
Qed.

Lemma incomplete_or_complete o ps ws :
  unset o ps ws ∨ (¬ unset o ps ws ∧ ¬ complete o ps ws) ∨ complete o ps ws.
Proof.
  destruct (job_name o) as [j|] eqn:Hj, ps as [|p0 ps'], ws as [|w0 ws'].
  5: { left. intros [| |]; cbn; by rewrite ?Hj. }
  4: { right; right. by eapply complete_intro. }
  all: right; left; split;
    [ intros (? & ? & ?)%unset_inv | intros ([? ?] & ? & ?)%complete_inv ];
    congruence.
Qed.

(** C3 as the code has it: the host lists of [opts] stay where they are, and
    their contents change only when a dictionary is returned and [job_name]
    is ['worker'] or ['ps']: then the entry at [task_index] of that list
    becomes its loopback form, and nothing else changes. *)
Theorem input_lists_after o s ps ws r s' :
  holds s o ps ws →
  make_tf_config o s = (r, s') →
  ∃ ps' ws',
    holds s' o ps' ws'
    ∧ match r with
      | Ok (Config _) =>
          (job_name o = Some "worker"
           ∧ rewritten_at ws ws' (task_index o) ∧ ps' = ps)
          ∨ (job_name o = Some "ps"
             ∧ rewritten_at ps ps' (task_index o) ∧ ws' = ws)
          ∨ (job_name o = Some "master" ∧ ps' = ps ∧ ws' = ws)
      | _ => ps' = ps ∧ ws' = ws
      end.
Proof.
  intros Hh Hrun. pose proof Hh as (Hps & Hws & Hne).
  destruct (incomplete_or_complete o ps ws) as [Hu|[[Hu Hc]|Hc]].
  - destruct (unset_inv _ _ _ Hu) as (Hj & -> & ->).
    rewrite make_tf_config_unset in Hrun by done. simplify_eq.
    by exists [], [].
  - rewrite (make_tf_config_incomplete o s ps ws) in Hrun by done.
    simplify_eq. by exists ps, ws.
  - destruct (complete_inv _ _ _ Hc) as ([j Hj] & Hp & Hw).
    set (m := fresh (dom (heap s))).
    assert (heap s !! m = None) as Hm by (apply not_elem_of_dom, is_fresh).
    assert (ps_hosts o ≠ m ∧ worker_hosts o ≠ m) as [Hpm Hwm]
      by (split; congruence).
    destruct r as [d|x].
    + destruct (make_tf_config_lists _ _ _ _ _ _ _ Hh Hj Hp Hw Hrun)
        as (c & r & l & k & e & p & -> & _ & Hr & Hk & He & Hport & Hown & Hrest).
      fold m in Hr, Hrest. unfold role in Hr.
      repeat case_decide; try discriminate; injection Hr as <- <-; subst j.
      * exists ps, ws. split; [|by right; right].
        split; [|split; [|done]].
        -- by apply (Hrest "ps" (ps_hosts o) ps).
        -- by apply (Hrest "worker" (worker_hosts o) ws).
      * exists ps, (<[k := "localhost:" +:+ p]> ws). split.
        -- split; [|done]. by apply (Hrest "ps" (ps_hosts o) ps).
        -- left. split; [done|]. split; [|done]. by exists k, e, p.
      * exists (<[k := "localhost:" +:+ p]> ps), ws. split.
        -- split; [done|]. split; [|done].
           by apply (Hrest "worker" (worker_hosts o) ws).
        -- right; left. split; [done|]. split; [|done]. by exists k, e, p.
    + rewrite (make_tf_config_raises _ _ _ _ _ _ _ Hh Hj Hp Hw Hrun).
      exists ps, ws. split; [|done]. unfold holds. cbn [heap]. fold m.
      by rewrite !lookup_insert_ne.
Qed.

(** C3 as stated fails: the call rewrites [opts.worker_hosts[0]]. *)
Lemma input_lists_mutated :
  let o := sample_opts (Some "worker") 0 in
  let s := sample_store sample_ps sample_ws in
  let s' := (make_tf_config o s).2 in
  holds s o ["h3:2224"] ["h1:2222"; "h2:2222"]
  ∧ heap s' !! worker_hosts o = Some ["localhost:2222"; "h2:2222"]
  ∧ heap s' !! worker_hosts o ≠ heap s !! worker_hosts o.
Proof.
  cbn zeta. rewrite sample_run. split; [apply sample_holds|]. by split.
Qed.

Lemma input_lists_after_witness :
  let o := sample_opts (Some "worker") 0 in
  let s := sample_store sample_ps sample_ws in
  (holds s o sample_ps sample_ws
   ∧ make_tf_config o s = (Ok (Config sample_config), sample_after))
  ∧ ∃ ps' ws',
    holds sample_after o ps' ws'
    ∧ ((job_name o = Some "worker"
        ∧ rewritten_at sample_ws ws' (task_index o) ∧ ps' = sample_ps)
       ∨ (job_name o = Some "ps"
          ∧ rewritten_at sample_ps ps' (task_index o) ∧ ws' = sample_ws)
       ∨ (job_name o = Some "master" ∧ ps' = sample_ps ∧ ws' = sample_ws)).
Proof.
  intros o s.
  assert (holds s o sample_ps sample_ws) as H1 by apply sample_holds.
  assert (make_tf_config o s = (Ok (Config sample_config), sample_after)) as H2
    by apply sample_run.
  split; [done|].
  exact (input_lists_after o s sample_ps sample_ws _ _ H1 H2).
Defined.

(** ** When the call raises *)

(** C2 as stated fails: a [task_index] past the end of the worker list, and
    a worker entry without [':'], both end in [IndexError]. *)
Lemma raises_index_error :
  let s := sample_store sample_ps sample_ws in
  let s0 := sample_store ["h3:2224"] ["h1"] in
  (make_tf_config (sample_opts (Some "worker") 5) s).1 = Raise IndexError
  ∧ ¬ returns (make_tf_config (sample_opts (Some "worker") 5)) s
  ∧ (make_tf_config (sample_opts (Some "worker") 0) s0).1 = Raise IndexError
  ∧ ¬ returns (make_tf_config (sample_opts (Some "worker") 0)) s0.
Proof.
  cbn zeta. unfold returns.
  assert ((make_tf_config (sample_opts (Some "worker") 5)
             (sample_store sample_ps sample_ws)).1 = Raise IndexError) as H1
    by (vm_compute; reflexivity).
  assert ((make_tf_config (sample_opts (Some "worker") 0)
             (sample_store ["h3:2224"] ["h1"])).1 = Raise IndexError) as H2
    by (vm_compute; reflexivity).
  rewrite H1, H2. repeat split; try done; by intros [? ?].
Qed.

(** C2 as the code has it: the call returns exactly when the triple is not
    complete, or [job_name] is a key of the cluster dictionary, [task_index]
    addresses an entry of the list under that key and that entry has a
    second [':']-separated part; otherwise it raises [KeyError] or
    [IndexError]. *)
Theorem returns_iff o s ps ws :
  holds s o ps ws →
  (returns (make_tf_config o) s
   ↔ ¬ complete o ps ws
     ∨ ∃ j l e p,
         job_name o = Some j
         ∧ cluster_as_built ps ws !! j = Some l
         ∧ seq_getitem l (task_index o) = Ok e
         ∧ port e = Ok p)
  ∧ ∀ x, (make_tf_config o s).1 = Raise x → x = KeyError ∨ x = IndexError.
Proof.
  intros Hh. pose proof Hh as (Hps & Hws & Hne). unfold returns.
  destruct (incomplete_or_complete o ps ws) as [Hu|[[Hu Hc]|Hc]].
  - assert (¬ complete o ps ws) as Hc.
    { intros ([? ?] & _)%complete_inv. apply unset_inv in Hu as (? & _).
      congruence. }
    destruct (unset_inv _ _ _ Hu) as (Hj & -> & ->).
    rewrite make_tf_config_unset by done. split; [|done].
    split; [by left|by eexists].
  - rewrite (make_tf_config_incomplete o s ps ws) by done. split; [|done].
    split; [by left|by eexists].
  - destruct (complete_inv _ _ _ Hc) as ([j Hj] & Hp & Hw).
    rewrite (make_tf_config_complete o s ps ws j) by done. cbn zeta.
    set (m := fresh (dom (heap s))).
    assert (∀ P : Prop, (¬ complete o ps ws ∨ P) ↔ P) as Hor by tauto.
    rewrite Hor. clear Hor.
    pose proof (as_built_lookup o m ps ws j) as Hb.
    destruct (role o m ps ws j) as [[r l]|]; cbn in Hb.
    2: { split; [|intros x [= <-]; by left].
         split; [by intros [? ?]|]. intros (? & ? & ? & ? & ? & ? & _).
         congruence. }
    assert (∀ l0 e, cluster_as_built ps ws !! j = Some l0 →
              seq_getitem l0 (task_index o) = Ok e →
              ∃ k, norm_index (length l) (task_index o) = Some k
                   ∧ l !! k = Some e) as Hinv.
    { intros l0 e Hl0 He. assert (l0 = l) as -> by congruence.
      rewrite seq_getitem_norm in He.
      destruct (norm_index _ _) as [k|]; [|done]. cbn in He.
      destruct (l !! k) eqn:?; [|done]. exists k. by simplify_eq. }
    destruct (norm_index (length l) (task_index o)) as [k|] eqn:Hk.
    2: { split; [|intros x [= <-]; by right].
         split; [by intros [? ?]|]. intros (? & l0 & e & p & ? & Hl0 & He & _).
         destruct (Hinv l0 e) as (? & ? & _); [congruence|done|done]. }
    destruct (l !! k) as [e|] eqn:He.
    2: { split; [|intros x [= <-]; by right].
         split; [by intros [? ?]|]. intros (? & l0 & e & p & ? & Hl0 & He' & _).
         destruct (Hinv l0 e) as (? & ? & ?); [congruence|done|congruence]. }
    destruct (port e) as [p|x] eqn:Hport.
    + split; [|intros x; by case_match].
      split; [|case_match; by eexists]. intros _.
      exists j, l, e, p. do 2 (split; [done|]). split; [|done].
      by rewrite seq_getitem_norm, Hk; cbn; rewrite He.
    + split.
      * split; [by intros [? ?]|].
        intros (? & l0 & e' & p & ? & Hl0 & He' & Hp').
        destruct (Hinv l0 e') as (? & ? & ?); [congruence|done|congruence].
      * intros ? [= <-]. right. unfold port in Hport.
        rewrite seq_getitem_norm in Hport. case_match; by simplify_eq.
Qed.

Lemma returns_iff_witness :
  let o := sample_opts (Some "worker") 0 in
  let s := sample_store sample_ps sample_ws in
  holds s o sample_ps sample_ws
  ∧ (returns (make_tf_config o) s
     ↔ ¬ complete o sample_ps sample_ws
       ∨ ∃ j l e p,
           job_name o = Some j
           ∧ cluster_as_built sample_ps sample_ws !! j = Some l
           ∧ seq_getitem l (task_index o) = Ok e
           ∧ port e = Ok p)
  ∧ ∀ x, (make_tf_config o s).1 = Raise x → x = KeyError ∨ x = IndexError.
Proof.
  intros o s.
  assert (holds s o sample_ps sample_ws) as H1 by apply sample_holds.
  split; [done|]. exact (returns_iff o s sample_ps sample_ws H1).
Defined.

Lemma split_contains c s :
  if contains c s then ∃ a b rest, split c s = a :: b :: rest
  else split c s = [s].
Proof.
  induction s as [|c' s IH]; [done|]. cbn.
  destruct (Ascii.eqb c' c); cbn.
  - destruct (contains c s).
    + destruct IH as (a & b & rest & ->). eauto.
    + rewrite IH. eauto.
  - destruct (contains c s).
    + destruct IH as (a & b & rest & ->). eauto.
    + by rewrite IH.
Qed.

Lemma port_lookup e :
  port e = match split ":" e !! 1%nat with
           | Some p => Ok p
           | None => Raise IndexError
           end.
Proof. apply (seq_getitem_pos _ 1). Qed.

Lemma port_contains e :
  (∃ p, port e = Ok p) ↔ contains ":" e = true.
Proof.
  rewrite port_lookup. pose proof (split_contains ":" e) as H.
  destruct (contains ":" e).
  - destruct H as (a & b & rest & ->). split; [done|]. intros _. by exists b.
  - rewrite H. split; [|done]. by intros [? ?].
Qed.

(** ** Properties of [parse_args] *)

(** [parse_args] leaves the two host lists in two different list objects. *)
Lemma parse_args_holds ns s o s' :
  parse_args ns s = (Ok o, s') →
  holds s' o
    (if str_truthy (ns_ps_hosts ns) then split "," (ns_ps_hosts ns) else [])
    (if str_truthy (ns_worker_hosts ns)
     then split "," (ns_worker_hosts ns) else []).
Proof.
  unfold parse_args. rewrite run_bind. cbn [lift].
  destruct (comprehension _ _) as [hu|]; [|done].
  rewrite run_bind.
  set (ws := if str_truthy (ns_worker_hosts ns)
             then split "," (ns_worker_hosts ns) else []).
  set (ps := if str_truthy (ns_ps_hosts ns)
             then split "," (ns_ps_hosts ns) else []).
  assert ((if str_truthy (ns_worker_hosts ns)
           then alloc (split "," (ns_worker_hosts ns)) else alloc []) = alloc ws)
    as -> by (subst ws; by destruct (str_truthy (ns_worker_hosts ns))).
  assert ((if str_truthy (ns_ps_hosts ns)
           then alloc (split "," (ns_ps_hosts ns)) else alloc []) = alloc ps)
    as -> by (subst ps; by destruct (str_truthy (ns_ps_hosts ns))).
  cbn [alloc]. rewrite run_bind. cbn [alloc heap log].
  intros [= <- <-]. unfold holds. cbn [ps_hosts worker_hosts heap].
  set (h1 := <[fresh (dom (heap s)) := ws]> (heap s)).
  assert (fresh (dom h1) ≠ fresh (dom (heap s))) as Hne.
  { intros Heq. apply (is_fresh (dom h1)). rewrite Heq. subst h1.
    rewrite dom_insert_L. set_solver. }
  split; [apply lookup_insert_eq|]. split; [|done].
  rewrite lookup_insert_ne by done. apply lookup_insert_eq.
Qed.

(** C9: the hidden-units argument ['32,64'] is parsed to the list
    [[32, 64]], in that order. *)
Theorem hidden_units_parsed ns s :
  ns_hidden_units ns = "32,64" →
  ∃ o s', parse_args ns s = (Ok o, s') ∧ hidden_units o = [32; 64].
Proof.
  intros H. unfold parse_args. rewrite H, run_bind. cbn [lift].
  assert (comprehension int (split "," "32,64") = Ok [32; 64]) as ->
    by (vm_compute; reflexivity).
  rewrite run_bind.
  destruct (str_truthy (ns_worker_hosts ns)), (str_truthy (ns_ps_hosts ns));
    cbn [alloc]; rewrite run_bind; cbn [alloc]; by eexists _, _.
Qed.

Lemma hidden_units_parsed_witness :
  ns_hidden_units sample_ns = "32,64"
  ∧ ∃ o s', parse_args sample_ns (State ∅ []) = (Ok o, s')
            ∧ hidden_units o = [32; 64].
Proof.
  split; [reflexivity|].
  exact (hidden_units_parsed sample_ns (State ∅ []) eq_refl).
Defined.

(** ** More on [split] and the host lists of [parse_args] *)

Lemma split_nonempty c s : split c s ≠ [].
Proof.
  destruct s as [|c' s]; [done|]. cbn.
  destruct (Ascii.eqb c' c); [done|]. by destruct (split c s).
Qed.

Lemma join_cons sep x l :
  l ≠ [] → join sep (x :: l) = x +:+ sep +:+ join sep l.
Proof. by destruct l. Qed.

Lemma join_split c s : join (String c EmptyString) (split c s) = s.
Proof.
  induction s as [|c' s IH]; [done|]. cbn [split].
  destruct (Ascii.eqb_spec c' c) as [->|Hne].
  - rewrite join_cons by apply split_nonempty. by rewrite IH.
  - pose proof (split_nonempty c s) as Hn.
    destruct (split c s) as [|w ws]; [done|].
    destruct ws as [|w' ws]; cbn [join] in *; by rewrite <- IH.
Qed.

Lemma split_no_sep c s e : e ∈ split c s → contains c e = false.
Proof.
  revert e. induction s as [|c' s IH]; intros e; cbn [split].
  - by intros ->%list_elem_of_singleton.
  - destruct (Ascii.eqb c' c) eqn:Hc.
    + intros [->|?]%elem_of_cons; [done|by apply IH].
    + destruct (split c s) as [|w ws].
      * intros ->%list_elem_of_singleton. cbn. by rewrite Hc.
      * intros [->|?]%elem_of_cons.
        -- cbn. rewrite Hc. apply IH, list_elem_of_here.
        -- by apply IH, list_elem_of_further.
Qed.

Lemma split_app c a b :
  contains c a = false →
  split c (a +:+ String c b) = a :: split c b.
Proof.
  induction a as [|c' a IH].
  - intros _. change (split c (String c b) = EmptyString :: split c b).
    cbn [split]. by rewrite Ascii.eqb_refl.
  - change (String c' a +:+ String c b) with (String c' (a +:+ String c b)).
    cbn [split contains]. intros [Hc Ha]%orb_false_elim.
    by rewrite Hc, IH.
Qed.

Lemma comprehension_ok {A B} (f : A → result B) l ys :
  comprehension f l = Ok ys ↔ Forall2 (λ x y, f x = Ok y) l ys.
Proof.
  revert ys. induction l as [|x l IH]; intros ys; cbn.
  - split; [intros [= <-]; constructor|by intros ->%Forall2_nil_inv_l].
  - split.
    + destruct (f x) as [y|] eqn:Hx; [|done].
      destruct (comprehension f l) as [ys'|]; [|done].
      intros [= <-]. constructor; [done|]. by apply IH.
    + intros (y & ys' & Hx & Hl & ->)%Forall2_cons_inv_l.
      apply IH in Hl. by rewrite Hx, Hl.
Qed.

Lemma comprehension_raise {A B} (f : A → result B) l e :
  comprehension f l = Raise e → ∃ x, x ∈ l ∧ f x = Raise e.
Proof.
  induction l as [|x l IH]; cbn; [done|].
  destruct (f x) as [y|e'] eqn:Hx.
  - destruct (comprehension f l) as [ys|e']; [done|].
    intros [= <-]. destruct IH as (x' & ? & ?); [done|].
    exists x'. split; [by apply list_elem_of_further|done].
  - intros [= <-]. exists x. split; [apply list_elem_of_here|done].
Qed.

Lemma int_raise s e : int s = Raise e → e = ValueError.
Proof. unfold int. intros H. repeat case_match; by simplify_eq. Qed.

Lemma parse_args_run ns s :
  parse_args ns s =
  match comprehension int (split "," (ns_hidden_units ns)) with
  | Raise e => (Raise e, s)
  | Ok hu =>
      let wh := fresh (dom (heap s)) in
      let h1 := <[wh := host_list (ns_worker_hosts ns)]> (heap s) in
      let ph := fresh (dom h1) in
      (Ok {| job_name := ns_job_name ns; task_index := ns_task_index ns;
             ps_hosts := ph; worker_hosts := wh; hidden_units := hu |},
       State (<[ph := host_list (ns_ps_hosts ns)]> h1) (log s))
  end.
Proof.
  unfold parse_args, host_list. rewrite run_bind. cbn [lift].
  destruct (comprehension _ _) as [hu|]; [|done].
  rewrite run_bind.
  by destruct (str_truthy (ns_worker_hosts ns)), (str_truthy (ns_ps_hosts ns)).
Qed.

Lemma host_list_facts text :
  join "," (host_list text) = text
  ∧ (host_list text = [] ↔ text = EmptyString)
  ∧ ∀ e, e ∈ host_list text → contains "," e = false.
Proof.
  unfold host_list. destruct text as [|c text]; cbn [str_truthy].
  - split; [done|]. split; [done|]. by intros e ?%elem_of_nil.
  - split; [apply join_split|]. split.
    + split; [|done]. intros H. by apply split_nonempty in H.
    + intros e. apply split_no_sep.
Qed.

(** X1: in the configuration [parse_args] returns, [hidden_units] has one
    integer for each comma-separated part of the argument text, in the
    order of the text, and is never empty. *)
Theorem parse_args_hidden_units ns s o s' :
  parse_args ns s = (Ok o, s') →
  Forall2 (λ part n, int part = Ok n)
    (split "," (ns_hidden_units ns)) (hidden_units o)
  ∧ hidden_units o ≠ [].
Proof.
  rewrite parse_args_run.
  destruct (comprehension _ _) as [hu|] eqn:Hhu; [|done].
  cbn zeta. intros [= <- <-]. cbn [hidden_units].
  apply comprehension_ok in Hhu. split; [done|].
  intros ->. apply Forall2_nil_inv_r in Hhu. by apply split_nonempty in Hhu.
Qed.

Lemma parse_args_hidden_units_witness :
  parse_args sample_ns (State ∅ [])
  = (Ok (sample_opts (Some "worker") 0), sample_store sample_ps sample_ws)
  ∧ Forall2 (λ part n, int part = Ok n)
      (split "," (ns_hidden_units sample_ns))
      (hidden_units (sample_opts (Some "worker") 0))
  ∧ hidden_units (sample_opts (Some "worker") 0) ≠ [].
Proof.
  split; [apply parse_args_sample|].
  exact (parse_args_hidden_units _ _ _ _ parse_args_sample).
Defined.

(** X2: when the conversions of lines 84-94 raise, the exception is
    [ValueError], from the hidden-units text, and it is raised before any
    host list is made: the store and the log are as they were. *)
Theorem parse_args_value_error ns s e s' :
  parse_args ns s = (Raise e, s') → e = ValueError ∧ s' = s.
Proof.
  rewrite parse_args_run.
  destruct (comprehension _ _) as [hu|e'] eqn:Hhu; cbn zeta; [done|].
  intros [= <- <-]. split; [|done].
  destruct (comprehension_raise _ _ _ Hhu) as (part & _ & Hp).
  by eapply int_raise.
Qed.

Lemma parse_args_value_error_witness :
  let ns := {| ns_job_name := None; ns_task_index := 0;
               ns_ps_hosts := EmptyString; ns_worker_hosts := EmptyString;
               ns_hidden_units := "32,x" |} in
  parse_args ns (State ∅ []) = (Raise ValueError, State ∅ [])
  ∧ ValueError = ValueError ∧ State ∅ [] = State ∅ [].
Proof.
  intros ns.
  assert (parse_args ns (State ∅ []) = (Raise ValueError, State ∅ [])) as H
    by (vm_compute; reflexivity).
  split; [done|]. exact (parse_args_value_error ns _ _ _ H).
Defined.

Lemma parse_args_fresh ns s o s' :
  parse_args ns s = (Ok o, s') →
  worker_hosts o = fresh (dom (heap s))
  ∧ ps_hosts o
    = fresh (dom (<[worker_hosts o := host_list (ns_worker_hosts ns)]> (heap s)))
  ∧ s' = State (<[ps_hosts o := host_list (ns_ps_hosts ns)]>
                  (<[worker_hosts o := host_list (ns_worker_hosts ns)]> (heap s)))
               (log s).
Proof.
  rewrite parse_args_run. destruct (comprehension _ _) as [hu|]; [|done].
  cbn zeta. by intros [= <- <-].
Qed.

(** X3: [parse_args] loses nothing of a host-list argument: the list it
    stores, joined by commas, is the argument text again; the list is empty
    exactly for the empty text; and no entry contains a comma. *)
Theorem parse_args_host_lists ns s o s' :
  parse_args ns s = (Ok o, s') →
  ∃ ps ws,
    holds s' o ps ws
    ∧ join "," ws = ns_worker_hosts ns
    ∧ join "," ps = ns_ps_hosts ns
    ∧ (ws = [] ↔ ns_worker_hosts ns = EmptyString)
    ∧ (ps = [] ↔ ns_ps_hosts ns = EmptyString)
    ∧ ∀ e, e ∈ ws ++ ps → contains "," e = false.
Proof.
  intros Hrun. pose proof (parse_args_holds _ _ _ _ Hrun) as Hh.
  fold (host_list (ns_ps_hosts ns)) in Hh.
  fold (host_list (ns_worker_hosts ns)) in Hh.
  destruct (host_list_facts (ns_worker_hosts ns)) as (Hw1 & Hw2 & Hw3).
  destruct (host_list_facts (ns_ps_hosts ns)) as (Hp1 & Hp2 & Hp3).
  eexists _, _. split; [exact Hh|]. do 4 (split; [done|]).
  intros e [?|?]%elem_of_app; auto.
Qed.

Lemma parse_args_host_lists_witness :
  parse_args sample_ns (State ∅ [])
  = (Ok (sample_opts (Some "worker") 0), sample_store sample_ps sample_ws)
  ∧ ∃ ps ws,
    holds (sample_store sample_ps sample_ws) (sample_opts (Some "worker") 0) ps ws
    ∧ join "," ws = ns_worker_hosts sample_ns
    ∧ join "," ps = ns_ps_hosts sample_ns
    ∧ (ws = [] ↔ ns_worker_hosts sample_ns = EmptyString)
    ∧ (ps = [] ↔ ns_ps_hosts sample_ns = EmptyString)
    ∧ ∀ e, e ∈ ws ++ ps → contains "," e = false.
Proof.
  split; [apply parse_args_sample|].
  exact (parse_args_host_lists _ _ _ _ parse_args_sample).
Defined.

(** X4: the two host lists [parse_args] stores are new list objects,
    neither of which existed before the call; every list that existed
    before is as it was, no warning is logged, and [job_name] and
    [task_index] are passed through. *)
Theorem parse_args_frame ns s o s' :
  parse_args ns s = (Ok o, s') →
  (worker_hosts o ∉ dom (heap s))
  ∧ (ps_hosts o ∉ dom (heap s))
  ∧ (∀ r l, heap s !! r = Some l → heap s' !! r = Some l)
  ∧ log s' = log s
  ∧ job_name o = ns_job_name ns
  ∧ task_index o = ns_task_index ns.
Proof.
  intros Hrun. destruct (parse_args_fresh _ _ _ _ Hrun) as (Hw & Hp & ->).
  assert (worker_hosts o ∉ dom (heap s)) as Hwn
    by (rewrite Hw; apply is_fresh).
  assert (ps_hosts o ∉ dom (heap s)) as Hpn.
  { rewrite Hp. intros Hin.
    apply (is_fresh (dom (<[worker_hosts o:=host_list (ns_worker_hosts ns)]>
                            (heap s)))).
    eapply elem_of_weaken; [exact Hin|].
    rewrite dom_insert_L. apply union_subseteq_r. }
  split; [done|]. split; [done|]. cbn [heap log]. split.
  { intros r l Hr. assert (r ∈ dom (heap s)) by by apply elem_of_dom.
    rewrite !lookup_insert_ne; [done|congruence|congruence]. }
  split; [done|].
  rewrite parse_args_run in Hrun.
  destruct (comprehension _ _); [|done]. cbn zeta in Hrun.
  injection Hrun as Ho _. by rewrite <- Ho.
Qed.

Lemma parse_args_frame_witness :
  let o := sample_opts (Some "worker") 0 in
  let s' := sample_store sample_ps sample_ws in
  parse_args sample_ns (State ∅ []) = (Ok o, s')
  ∧ (worker_hosts o ∉ dom (heap (State ∅ [])))
  ∧ (ps_hosts o ∉ dom (heap (State ∅ [])))
  ∧ (∀ r l, heap (State ∅ []) !! r = Some l → heap s' !! r = Some l)
  ∧ log s' = log (State ∅ [])
  ∧ job_name o = ns_job_name sample_ns
  ∧ task_index o = ns_task_index sample_ns.
Proof.
  split; [apply parse_args_sample|].
  exact (parse_args_frame _ _ _ _ parse_args_sample).
Defined.

(** ** More on [make_tf_config] *)

Lemma returned_config_complete o s ps ws c s' :
  holds s o ps ws →
  make_tf_config o s = (Ok (Config c), s') →
  complete o ps ws.
Proof.
  intros (Hps & Hws & _) Hrun.
  destruct (incomplete_or_complete o ps ws) as [Hu|[[Hu Hc]|Hc]]; [| |done].
  - destruct (unset_inv _ _ _ Hu) as (Hj & -> & ->).
    by rewrite make_tf_config_unset in Hrun.
  - by rewrite (make_tf_config_incomplete o s ps ws) in Hrun.
Qed.

Lemma complete_log o s ps ws :
  holds s o ps ws → complete o ps ws → log (make_tf_config o s).2 = log s.
Proof.
  intros Hh Hc. destruct (complete_inv _ _ _ Hc) as ([j Hj] & Hp & Hw).
  rewrite (make_tf_config_complete o s ps ws j) by done.
  cbn zeta. by repeat case_match.
Qed.

(** X5: [make_tf_config] logs a warning only for an incomplete triple: when
    all three settings are set, or none is, the log is left as it was,
    whether the call returns or raises. *)
Theorem warnings_only_when_incomplete o s ps ws :
  holds s o ps ws →
  log (make_tf_config o s).2 = log s ↔ unset o ps ws ∨ complete o ps ws.
Proof.
  intros Hh. pose proof Hh as (Hps & Hws & _).
  destruct (incomplete_or_complete o ps ws) as [Hu|[[Hu Hc]|Hc]].
  - split; [by left|]. intros _.
    destruct (unset_inv _ _ _ Hu) as (Hj & -> & ->).
    by rewrite make_tf_config_unset.
  - rewrite (make_tf_config_incomplete o s ps ws) by done. cbn [snd log].
    split; [|by intros [|]]. intros Heq. exfalso.
    apply (f_equal length) in Heq. rewrite length_app in Heq.
    unfold warnings in Heq. cbn [app length] in Heq. lia.
  - split; [by right|]. intros _. by apply (complete_log o s ps ws).
Qed.

Lemma warnings_only_when_incomplete_witness :
  let o := sample_opts (Some "worker") 0 in
  let s := sample_store sample_ps sample_ws in
  holds s o sample_ps sample_ws
  ∧ (log (make_tf_config o s).2 = log s
     ↔ unset o sample_ps sample_ws ∨ complete o sample_ps sample_ws).
Proof.
  intros o s.
  assert (holds s o sample_ps sample_ws) as H1 by apply sample_holds.
  split; [done|].
  exact (warnings_only_when_incomplete o s sample_ps sample_ws H1).
Defined.

(** X6: for an incomplete triple the warnings logged are framed by the
    'incomplete' notice and the 'single mode' notice, with one warning in
    between for each setting that is not set: one or two of them. *)
Theorem incomplete_warning_count o s ps ws :
  holds s o ps ws →
  ¬ unset o ps ws → ¬ complete o ps ws →
  ∃ mid,
    log (make_tf_config o s).2
    = log s ++ msg_incomplete :: mid ++ [msg_single_mode]
    ∧ length mid = unset_count o ps ws
    ∧ (1 ≤ length mid ≤ 2)%nat.
Proof.
  intros (Hps & Hws & _) Hu Hc.
  rewrite (make_tf_config_incomplete o s ps ws) by done. cbn [snd log].
  unfold warnings, unset_count.
  exists ((if is_none (job_name o) then [msg_job_name (job_name o)] else [])
          ++ (if negb (truthy ps) then [msg_ps_hosts ps] else [])
          ++ (if negb (truthy ws) then [msg_worker_hosts ws] else [])).
  split; [by rewrite <- !app_assoc|].
  destruct (job_name o) as [j|] eqn:Hj, ps as [|p0 ps'], ws as [|w0 ws'];
    try (exfalso; apply Hc; by eapply complete_intro);
    try (exfalso; apply Hu; intros [| |]; cbn; by rewrite ?Hj);
    cbn [is_set filter list_filter]; rewrite ?Hj;
    cbn [is_none truthy negb app length];
    (split; [vm_compute; reflexivity|lia]).
Qed.

Lemma incomplete_warning_count_witness :
  let o := sample_opts None 0 in
  let s := sample_store ["h3:2224"] [] in
  (holds s o ["h3:2224"] []
   ∧ ¬ unset o ["h3:2224"] [] ∧ ¬ complete o ["h3:2224"] [])
  ∧ ∃ mid,
    log (make_tf_config o s).2
    = log s ++ msg_incomplete :: mid ++ [msg_single_mode]
    ∧ length mid = unset_count o ["h3:2224"] []
    ∧ (1 ≤ length mid ≤ 2)%nat.
Proof.
  intros o s.
  assert (holds s o ["h3:2224"] []) as H1 by apply sample_holds.
  assert (¬ unset o ["h3:2224"] []) as H2
    by (intros H; specialize (H PsHosts); discriminate H).
  assert (¬ complete o ["h3:2224"] []) as H3
    by (intros H; specialize (H JobName); discriminate H).
  split; [done|].
  exact (incomplete_warning_count o s ["h3:2224"] [] H1 H2 H3).
Defined.

Lemma built_dom o m :
  dom (cluster (built o m)) = ({[ "master"; "worker"; "ps" ]} : gset string).
Proof.
  unfold built; cbn [cluster]. rewrite !dom_insert_L, dom_singleton_L.
  apply set_eq. intros x. rewrite !elem_of_union, !elem_of_singleton. tauto.
Qed.

(** X7: a returned dictionary carries [task_index] unchanged and has
    exactly the cluster keys ['master'], ['worker'] and ['ps']; its worker
    and ps lists are the very list objects of [opts], and its master list
    is a new object, the only one the call adds to the store. *)
Theorem returned_dictionary_shape o s ps ws c s' :
  holds s o ps ws →
  make_tf_config o s = (Ok (Config c), s') →
  index (task c) = task_index o
  ∧ dom (cluster c) = ({[ "master"; "worker"; "ps" ]} : gset string)
  ∧ cluster c !! "worker" = Some (worker_hosts o)
  ∧ cluster c !! "ps" = Some (ps_hosts o)
  ∧ ∃ m, cluster c !! "master" = Some m
         ∧ (m ∉ dom (heap s))
         ∧ dom (heap s') = {[ m ]} ∪ dom (heap s).
Proof.
  intros Hh Hrun. pose proof (returned_config_complete _ _ _ _ _ _ Hh Hrun) as Hc.
  destruct (complete_inv _ _ _ Hc) as ([j Hj] & Hp & Hw).
  destruct (make_tf_config_returns _ _ _ _ _ _ _ Hh Hj Hp Hw Hrun)
    as (r & l & k & e & p & Hr & Hk & He & Hport & _ & Hcase).
  set (m := fresh (dom (heap s))) in *. cbn zeta in Hcase.
  assert (r ∈ ({[ m ]} ∪ dom (heap s) : gset loc)) as Hrin.
  { pose proof (role_heap _ _ _ _ _ _ _ Hh Hr) as Hl. fold m in Hl.
    apply (elem_of_dom_2 (D := gset loc)) in Hl.
    by rewrite dom_insert_L in Hl. }
  assert (index (task c) = task_index o
          ∧ cluster c = cluster (built o m)
          ∧ dom (heap s') = {[ m ]} ∪ dom (heap s)) as (Hi & Hcl & Hd).
  { destruct Hcase as [(_ & _ & [= ->] & ->)|(_ & [= ->] & ->)];
      (split; [done|]); (split; [done|]);
      rewrite !dom_insert_L; apply set_eq; intros x;
      rewrite !elem_of_union, !elem_of_singleton;
      rewrite elem_of_union, elem_of_singleton in Hrin;
      split; intros; destruct_or?; subst; tauto. }
  split; [done|]. rewrite Hcl. split; [apply built_dom|].
  split; [done|]. split; [done|].
  exists m. split; [done|]. split; [apply is_fresh|done].
Qed.

Lemma returned_dictionary_shape_witness :
  let o := sample_opts (Some "worker") 0 in
  let s := sample_store sample_ps sample_ws in
  (holds s o sample_ps sample_ws
   ∧ make_tf_config o s = (Ok (Config sample_config), sample_after))
  ∧ index (task sample_config) = task_index o
  ∧ dom (cluster sample_config) = ({[ "master"; "worker"; "ps" ]} : gset string)
  ∧ cluster sample_config !! "worker" = Some (worker_hosts o)
  ∧ cluster sample_config !! "ps" = Some (ps_hosts o)
  ∧ ∃ m, cluster sample_config !! "master" = Some m
         ∧ (m ∉ dom (heap s))
         ∧ dom (heap sample_after) = {[ m ]} ∪ dom (heap s).
Proof.
  intros o s.
  assert (holds s o sample_ps sample_ws) as H1 by apply sample_holds.
  assert (make_tf_config o s = (Ok (Config sample_config), sample_after)) as H2
    by apply sample_run.
  split; [done|].
  exact (returned_dictionary_shape o s sample_ps sample_ws _ _ H1 H2).
Defined.

(** X8: unless this node is worker 0 (or [job_name] is ['master'] itself),
    the master list of a returned dictionary is the one-element list with
    the original [worker_hosts[0]], not its loopback form, and the task
    type is [job_name]. *)
Theorem master_list_keeps_first_worker o s ps ws j c s' :
  holds s o ps ws →
  job_name o = Some j → j ≠ "master" →
  ¬ (j = "worker" ∧ task_index o = 0) →
  make_tf_config o s = (Ok (Config c), s') →
  ∃ w0, ws !! 0%nat = Some w0
        ∧ cluster_list s' c "master" = Some [w0]
        ∧ type (task c) = Some j.
Proof.
  intros Hh Hj Hjm Hn Hrun.
  pose proof (returned_config_complete _ _ _ _ _ _ Hh Hrun) as Hc.
  destruct (complete_inv _ _ _ Hc) as (_ & Hp & Hw).
  destruct (make_tf_config_returns _ _ _ _ _ _ _ Hh Hj Hp Hw Hrun)
    as (r & l & k & e & p & Hr & Hk & He & Hport & _ & Hcase).
  set (m := fresh (dom (heap s))) in *. cbn zeta in Hcase.
  destruct Hcase as [(? & ? & _)|(_ & [= ->] & Hheap)]; [tauto|].
  assert (r ≠ m) as Hrm by (eapply role_master; eauto).
  destruct ws as [|w0 ws']; [done|]. exists w0. split; [done|].
  split; [|by cbn; rewrite Hj].
  rewrite (cluster_list_master o m) by done.
  by rewrite Hheap, lookup_insert_ne, lookup_insert_eq.
Qed.

Lemma master_list_keeps_first_worker_witness :
  let o := sample_opts (Some "worker") 1 in
  let s := sample_store sample_ps sample_ws in
  let c := built o 3%positive in
  let s' := State {[ 1%positive := ["h1:2222"; "localhost:2222"];
                     2%positive := ["h3:2224"];
                     3%positive := ["h1:2222"] ]} [] in
  (holds s o sample_ps sample_ws
   ∧ job_name o = Some "worker" ∧ "worker" ≠ "master"
   ∧ ¬ ("worker" = "worker" ∧ task_index o = 0)
   ∧ make_tf_config o s = (Ok (Config c), s'))
  ∧ ∃ w0, sample_ws !! 0%nat = Some w0
          ∧ cluster_list s' c "master" = Some [w0]
          ∧ type (task c) = Some "worker".
Proof.
  intros o s c s'.
  assert (holds s o sample_ps sample_ws) as H1 by apply sample_holds.
  assert (job_name o = Some "worker") as H2 by reflexivity.
  assert ("worker" ≠ "master") as H3 by discriminate.
  assert (¬ ("worker" = "worker" ∧ task_index o = 0)) as H4
    by (intros [_ H]; discriminate H).
  assert (make_tf_config o s = (Ok (Config c), s')) as H5
    by (vm_compute; reflexivity).
  split; [done|].
  exact (master_list_keeps_first_worker o s sample_ps sample_ws "worker" c s'
           H1 H2 H3 H4 H5).
Defined.

Lemma norm_index_neg_length n :
  norm_index (S n) (- Z.of_nat (S n)) = Some 0%nat.
Proof.
  unfold norm_index.
  destruct (Z.leb_spec 0 (- Z.of_nat (S n))); [lia|].
  destruct (Z.leb_spec (- Z.of_nat (S n)) (- Z.of_nat (S n))); [|lia].
  f_equal. lia.
Qed.

(** X9: when the first worker is addressed from the end
    ([task_index = -len(worker_hosts)]), its entry is rewritten to the
    loopback form like for [task_index = 0], but the node is not promoted:
    the task type stays ['worker'] and the master list keeps the original
    address. *)
Theorem first_worker_by_negative_index o s ps w0 rest p :
  holds s o ps (w0 :: rest) →
  ps ≠ [] →
  job_name o = Some "worker" →
  task_index o = - Z.of_nat (length (w0 :: rest)) →
  port w0 = Ok p →
  ∃ c s',
    make_tf_config o s = (Ok (Config c), s')
    ∧ type (task c) = Some "worker"
    ∧ cluster_list s' c "worker" = Some (("localhost:" +:+ p) :: rest)
    ∧ cluster_list s' c "master" = Some [w0].
Proof.
  intros Hh Hp Hj Hi Hport.
  pose proof (make_tf_config_complete o s ps (w0 :: rest) "worker" Hh Hj Hp
                ltac:(done)) as Hrun.
  cbn zeta in Hrun. set (m := fresh (dom (heap s))) in *.
  assert (role o m ps (w0 :: rest) "worker"
          = Some (worker_hosts o, w0 :: rest)) as Hr by done.
  rewrite Hr, Hi in Hrun. cbn [length] in Hrun.
  rewrite norm_index_neg_length in Hrun. cbn [lookup list_lookup] in Hrun.
  rewrite Hport in Hrun.
  rewrite (bool_decide_eq_false_2 (- Z.of_nat (S (length rest)) = 0)) in Hrun
    by lia.
  rewrite andb_false_r in Hrun.
  assert (worker_hosts o ≠ m) as Hwm.
  { eapply role_master; [exact Hh|exact Hr|done]. }
  eexists _, _. split; [exact Hrun|]. split; [by cbn; rewrite Hj|].
  split.
  - rewrite (cluster_list_role o m ps (w0 :: rest)), Hr by done.
    cbn. apply lookup_insert_eq.
  - rewrite (cluster_list_master o m) by done. cbn [heap].
    by rewrite lookup_insert_ne, lookup_insert_eq.
Qed.

Lemma first_worker_by_negative_index_witness :
  let o := sample_opts (Some "worker") (-2) in
  let s := sample_store sample_ps sample_ws in
  (holds s o sample_ps ("h1:2222" :: ["h2:2222"])
   ∧ sample_ps ≠ []
   ∧ job_name o = Some "worker"
   ∧ task_index o = - Z.of_nat (length ("h1:2222" :: ["h2:2222"]))
   ∧ port "h1:2222" = Ok "2222")
  ∧ ∃ c s',
    make_tf_config o s = (Ok (Config c), s')
    ∧ type (task c) = Some "worker"
    ∧ cluster_list s' c "worker" = Some (("localhost:" +:+ "2222") :: ["h2:2222"])
    ∧ cluster_list s' c "master" = Some ["h1:2222"].
Proof.
  intros o s.
  assert (holds s o sample_ps ("h1:2222" :: ["h2:2222"])) as H1
    by apply sample_holds.
  assert (sample_ps ≠ []) as H2 by discriminate.
  assert (job_name o = Some "worker") as H3 by reflexivity.
  assert (task_index o = - Z.of_nat (length ("h1:2222" :: ["h2:2222"]))) as H4
    by reflexivity.
  assert (port "h1:2222" = Ok "2222") as H5 by reflexivity.
  split; [done|].
  exact (first_worker_by_negative_index o s sample_ps "h1:2222" ["h2:2222"]
           "2222" H1 H2 H3 H4 H5).
Defined.

Lemma norm_index_none n i :
  norm_index n i = None ↔ i < - Z.of_nat n ∨ Z.of_nat n ≤ i.
Proof.
  unfold norm_index.
  destruct (Z.leb_spec 0 i).
  - destruct (Z.ltb_spec i (Z.of_nat n)); split; try done; lia.
  - destruct (Z.leb_spec (- Z.of_nat n) i); split; try done; lia.
Qed.

Lemma port_raise e x : port e = Raise x → x = IndexError ∧ contains ":" e = false.
Proof.
  intros H. pose proof (port_contains e) as Hc.
  rewrite port_lookup in H.
  destruct (split ":" e !! 1%nat) as [p|] eqn:Hp; [done|].
  split; [by simplify_eq|].
  destruct (contains ":" e); [|done].
  destruct (proj2 Hc eq_refl) as [p Hp']. rewrite port_lookup, Hp in Hp'. done.
Qed.

Lemma role_none o m ps ws j :
  role o m ps ws j = None ↔ j ≠ "master" ∧ j ≠ "worker" ∧ j ≠ "ps".
Proof.
  unfold role. repeat case_decide; split; try done; try tauto.
Qed.

(** X10: for a complete triple, [make_tf_config] raises [KeyError] exactly
    when [job_name] is none of the cluster keys ['master'], ['worker'] and
    ['ps']. *)
Theorem key_error_iff o s ps ws j :
  holds s o ps ws → complete o ps ws → job_name o = Some j →
  (make_tf_config o s).1 = Raise KeyError
  ↔ j ≠ "master" ∧ j ≠ "worker" ∧ j ≠ "ps".
Proof.
  intros Hh Hc Hj. destruct (complete_inv _ _ _ Hc) as (_ & Hp & Hw).
  rewrite (make_tf_config_complete o s ps ws j) by done. cbn zeta.
  rewrite <- (role_none o (fresh (dom (heap s))) ps ws j).
  destruct (role _ _ _ _ _) as [[r l]|]; [|done].
  split; [|done]. intros H. exfalso.
  destruct (norm_index _ _); [|done]. destruct (l !! _) as [e|]; [|done].
  destruct (port e) as [p|x] eqn:Hport.
  - by case_match.
  - apply port_raise in Hport as [-> _]. done.
Qed.

Lemma key_error_iff_witness :
  let o := sample_opts (Some "chief") 0 in
  let s := sample_store sample_ps sample_ws in
  (holds s o sample_ps sample_ws ∧ complete o sample_ps sample_ws
   ∧ job_name o = Some "chief")
  ∧ ((make_tf_config o s).1 = Raise KeyError
     ↔ "chief" ≠ "master" ∧ "chief" ≠ "worker" ∧ "chief" ≠ "ps").
Proof.
  intros o s.
  assert (holds s o sample_ps sample_ws) as H1 by apply sample_holds.
  assert (complete o sample_ps sample_ws) as H2 by apply sample_complete.
  assert (job_name o = Some "chief") as H3 by reflexivity.
  split; [done|].
  exact (key_error_iff o s sample_ps sample_ws "chief" H1 H2 H3).
Defined.

(** X11: for a complete triple, [make_tf_config] raises [IndexError]
    exactly when [job_name] names a cluster list and either [task_index]
    lies outside [-len, len) for that list, or the entry it addresses
    contains no [':']. *)
Theorem index_error_iff o s ps ws j :
  holds s o ps ws → complete o ps ws → job_name o = Some j →
  (make_tf_config o s).1 = Raise IndexError
  ↔ ∃ l, cluster_as_built ps ws !! j = Some l
         ∧ ((task_index o < - Z.of_nat (length l)
             ∨ Z.of_nat (length l) ≤ task_index o)
            ∨ ∃ e, seq_getitem l (task_index o) = Ok e
                   ∧ contains ":" e = false).
Proof.
  intros Hh Hc Hj. destruct (complete_inv _ _ _ Hc) as (_ & Hp & Hw).
  rewrite (make_tf_config_complete o s ps ws j) by done. cbn zeta.
  rewrite (as_built_lookup o (fresh (dom (heap s))) ps ws j).
  destruct (role _ _ _ _ _) as [[r l]|]; cbn [fmap option_fmap option_map snd].
  2: { split; [done|]. by intros (? & ? & _). }
  destruct (norm_index (length l) (task_index o)) as [k|] eqn:Hk.
  - assert (¬ (task_index o < - Z.of_nat (length l)
               ∨ Z.of_nat (length l) ≤ task_index o)) as Hin.
    { intros H%norm_index_none. congruence. }
    cbn [mbind option_bind].
    destruct (l !! k) as [e|] eqn:He.
    2: { apply norm_index_lt in Hk. apply lookup_ge_None in He. lia. }
    destruct (port e) as [p|x] eqn:Hport.
    + split; [by case_match|].
      intros (? & [= <-] & [?|(e' & He' & Hno)]); [done|].
      rewrite seq_getitem_norm, Hk in He'. cbn in He'. rewrite He in He'.
      injection He' as <-.
      assert (contains ":" e = true) by (apply port_contains; eauto).
      congruence.
    + apply port_raise in Hport as [-> Hno]. split; [|done]. intros _.
      exists l. split; [done|]. right. exists e. split; [|done].
      rewrite seq_getitem_norm, Hk. cbn. by rewrite He.
  - split; [|done]. intros _. exists l. split; [done|]. left.
    by apply norm_index_none.
Qed.

Lemma index_error_iff_witness :
  let o := sample_opts (Some "worker") 5 in
  let s := sample_store sample_ps sample_ws in
  (holds s o sample_ps sample_ws ∧ complete o sample_ps sample_ws
   ∧ job_name o = Some "worker")
  ∧ ((make_tf_config o s).1 = Raise IndexError
     ↔ ∃ l, cluster_as_built sample_ps sample_ws !! "worker" = Some l
            ∧ ((task_index o < - Z.of_nat (length l)
                ∨ Z.of_nat (length l) ≤ task_index o)
               ∨ ∃ e, seq_getitem l (task_index o) = Ok e
                      ∧ contains ":" e = false)).
Proof.
  intros o s.
  assert (holds s o sample_ps sample_ws) as H1 by apply sample_holds.
  assert (complete o sample_ps sample_ws) as H2 by apply sample_complete.
  assert (job_name o = Some "worker") as H3 by reflexivity.
  split; [done|].
  exact (index_error_iff o s sample_ps sample_ws "worker" H1 H2 H3).
Defined.

(** ** The port of an entry *)

Lemma port_app a b :
  contains ":" a = false →
  port (a +:+ String ":" b)
  = match split ":" b with p :: _ => Ok p | [] => Raise IndexError end.
Proof.
  intros Ha. rewrite port_lookup, split_app by done.
  by destruct (split ":" b).
Qed.

Lemma port_no_colon e p : port e = Ok p → contains ":" p = false.
Proof.
  rewrite port_lookup. destruct (split ":" e !! 1%nat) as [p'|] eqn:Hp; [|done].
  intros [= <-]. eapply split_no_sep, list_elem_of_lookup_2, Hp.
Qed.

Lemma port_loopback p :
  contains ":" p = false → port ("localhost:" +:+ p) = Ok p.
Proof.
  intros Hp. change ("localhost:" +:+ p) with ("localhost" +:+ String ":" p).
  rewrite port_app by done. pose proof (split_contains ":" p) as H.
  rewrite Hp in H. by rewrite H.
Qed.

(** X12: the port [make_tf_config] takes from an entry is the text between
    its first and its second [':']: for [host:port] it is [port], and
    whatever follows a second [':'] is dropped. *)
Theorem port_between_colons a b :
  contains ":" a = false → contains ":" b = false →
  port (a +:+ String ":" b) = Ok b
  ∧ ∀ c, port (a +:+ String ":" (b +:+ String ":" c)) = Ok b.
Proof.
  intros Ha Hb. split.
  - rewrite port_app by done. pose proof (split_contains ":" b) as H.
    rewrite Hb in H. by rewrite H.
  - intros c. rewrite port_app by done. by rewrite split_app.
Qed.

Lemma port_between_colons_witness :
  (contains ":" "h1" = false ∧ contains ":" "2222" = false)
  ∧ port ("h1" +:+ String ":" "2222") = Ok "2222"
  ∧ ∀ c, port ("h1" +:+ String ":" ("2222" +:+ String ":" c)) = Ok "2222".
Proof.
  split; [by split|].
  exact (port_between_colons "h1" "2222" eq_refl eq_refl).
Defined.

(** ** Calling [make_tf_config] again *)

Lemma holds_not_fresh o s ps ws :
  holds s o ps ws →
  ps_hosts o ≠ fresh (dom (heap s)) ∧ worker_hosts o ≠ fresh (dom (heap s)).
Proof.
  intros (Hps & Hws & _).
  assert (heap s !! fresh (dom (heap s)) = None) as Hm
    by (apply not_elem_of_dom, is_fresh).
  split; congruence.
Qed.

Lemma holds_frame o s s' ps ws :
  holds s o ps ws →
  (∀ x, x ≠ fresh (dom (heap s)) → heap s' !! x = heap s !! x) →
  holds s' o ps ws.
Proof.
  intros Hh Hx. destruct (holds_not_fresh _ _ _ _ Hh) as [Hp Hw].
  destruct Hh as (Hps & Hws & Hne). unfold holds.
  by rewrite !Hx.
Qed.

Lemma make_tf_config_localised o s ps ws j r l k e p :
  holds s o ps ws → job_name o = Some j → ps ≠ [] → ws ≠ [] →
  role o (fresh (dom (heap s))) ps ws j = Some (r, l) →
  norm_index (length l) (task_index o) = Some k →
  l !! k = Some e → port e = Ok p →
  (r ≠ fresh (dom (heap s)) → e = "localhost:" +:+ p) →
  ∃ c s',
    make_tf_config o s = (Ok (Config c), s')
    ∧ type (task c)
      = (if bool_decide (j = "worker") && bool_decide (task_index o = 0)
         then Some "master" else Some j)
    ∧ index (task c) = task_index o
    ∧ holds s' o ps ws.
Proof.
  intros Hh Hj Hp Hw Hr Hk He Hport Hloc.
  pose proof (make_tf_config_complete o s ps ws j Hh Hj Hp Hw) as Hrun.
  cbn zeta in Hrun. set (m := fresh (dom (heap s))) in *.
  rewrite Hr, Hk, He, Hport in Hrun. cbn [heap] in Hrun.
  pose proof (role_heap _ _ _ _ _ _ _ Hh Hr) as Hrl. fold m in Hrl.
  assert (∀ x, x ≠ m →
            (<[r := <[k := "localhost:" +:+ p]> l]>
               (<[m := take 1 ws]> (heap s))) !! x = heap s !! x) as Hx.
  { intros x Hxm. destruct (decide (x = r)) as [->|Hxr].
    - rewrite lookup_insert_eq. rewrite lookup_insert_ne in Hrl by done.
      rewrite Hrl. f_equal. apply list_insert_id. by rewrite <- Hloc.
    - by rewrite !lookup_insert_ne. }
  destruct (bool_decide (j = "worker") && bool_decide (task_index o = 0)).
  - eexists _, _. split; [exact Hrun|]. split; [done|]. split; [done|].
    apply (holds_frame o s); [done|]. cbn [heap]. fold m. intros x Hxm.
    rewrite lookup_insert_ne by done. by apply Hx.
  - eexists _, _. split; [exact Hrun|]. split; [by cbn; rewrite Hj|].
    split; [done|]. by apply (holds_frame o s).
Qed.

(** X13: [make_tf_config] can be called again on the configuration it has
    rewritten: after a call that returned a dictionary, a second call
    returns a dictionary with the same task type and index and changes
    neither host list any further. *)
Theorem make_tf_config_twice o s ps ws c s1 :
  holds s o ps ws →
  make_tf_config o s = (Ok (Config c), s1) →
  ∃ ps1 ws1 c' s2,
    holds s1 o ps1 ws1
    ∧ make_tf_config o s1 = (Ok (Config c'), s2)
    ∧ task c' = task c
    ∧ holds s2 o ps1 ws1.
Proof.
  intros Hh Hrun.
  pose proof (returned_config_complete _ _ _ _ _ _ Hh Hrun) as Hc.
  destruct (complete_inv _ _ _ Hc) as ([j Hj] & Hp & Hw).
  destruct (make_tf_config_returns _ _ _ _ _ _ _ Hh Hj Hp Hw Hrun)
    as (r & l & k & e & p & Hr & Hk & He & Hport & _ & Hcase).
  destruct (make_tf_config_lists _ _ _ _ _ _ _ Hh Hj Hp Hw Hrun)
    as (c0 & r0 & l0 & k0 & e0 & p0 & [= <-] & _ & Hr0 & Hk0 & He0 & Hport0
        & Hown & Hrest).
  simplify_eq. cbn zeta in Hcase.
  assert (p0 = p) as -> by congruence.
  set (m := fresh (dom (heap s))) in *.
  set (ip := "localhost:" +:+ p) in *.
  assert (port ip = Ok p) as Hip.
  { apply port_loopback. by eapply port_no_colon. }
  assert (type (task c)
          = (if bool_decide (j = "worker") && bool_decide (task_index o = 0)
             then Some "master" else Some j)
          ∧ index (task c) = task_index o) as [Hty Hix].
  { destruct Hcase as [(-> & H0 & [= ->] & _)|(Hn & [= ->] & _)].
    - by rewrite !bool_decide_eq_true_2.
    - cbn. rewrite Hj. split; [|done].
      destruct (bool_decide (j = "worker") && bool_decide (task_index o = 0))
        eqn:Hb; [|done].
      apply andb_prop in Hb as [?%bool_decide_eq_true ?%bool_decide_eq_true].
      tauto. }
  pose proof Hh as (Hps & Hws & Hne).
  unfold role in Hr.
  destruct (decide (j = "master")) as [->|?];
    [|destruct (decide (j = "worker")) as [->|?];
      [|destruct (decide (j = "ps")) as [->|?]; [|done]]];
    injection Hr as <- <-.
  - (* job_name 'master': the host lists were not touched *)
    assert (holds s1 o ps ws) as Hh1.
    { split; [|split; [|done]].
      - by apply (Hrest "ps" (ps_hosts o) ps).
      - by apply (Hrest "worker" (worker_hosts o) ws). }
    destruct (make_tf_config_localised o s1 ps ws "master"
                (fresh (dom (heap s1))) (take 1 ws) k e p)
      as (c' & s2 & Hrun2 & Hty2 & Hix2 & Hh2); try done.
    exists ps, ws, c', s2. do 2 (split; [done|]). split; [|done].
    destruct c' as [[t' i'] ? ?], c as [[t i] ? ?]; cbn in *. congruence.
  - (* job_name 'worker' *)
    assert (holds s1 o ps (<[k := ip]> ws)) as Hh1.
    { split; [|split; [done|done]]. by apply (Hrest "ps" (ps_hosts o) ps). }
    destruct (make_tf_config_localised o s1 ps (<[k := ip]> ws) "worker"
                (worker_hosts o) (<[k := ip]> ws) k ip p)
      as (c' & s2 & Hrun2 & Hty2 & Hix2 & Hh2); try done.
    { intros Hnil. apply (f_equal length) in Hnil.
      rewrite length_insert in Hnil. by destruct ws. }
    { by rewrite length_insert. }
    { apply list_lookup_insert_eq. by eapply norm_index_lt. }
    exists ps, (<[k := ip]> ws), c', s2. do 2 (split; [done|]). split; [|done].
    destruct c' as [[t' i'] ? ?], c as [[t i] ? ?]; cbn in *. congruence.
  - (* job_name 'ps' *)
    assert (holds s1 o (<[k := ip]> ps) ws) as Hh1.
    { split; [done|]. split; [|done].
      by apply (Hrest "worker" (worker_hosts o) ws). }
    destruct (make_tf_config_localised o s1 (<[k := ip]> ps) ws "ps"
                (ps_hosts o) (<[k := ip]> ps) k ip p)
      as (c' & s2 & Hrun2 & Hty2 & Hix2 & Hh2); try done.
    { intros Hnil. apply (f_equal length) in Hnil.
      rewrite length_insert in Hnil. by destruct ps. }
    { by rewrite length_insert. }
    { apply list_lookup_insert_eq. by eapply norm_index_lt. }
    exists (<[k := ip]> ps), ws, c', s2. do 2 (split; [done|]). split; [|done].
    destruct c' as [[t' i'] ? ?], c as [[t i] ? ?]; cbn in *. congruence.
Qed.

Lemma make_tf_config_twice_witness :
  let o := sample_opts (Some "worker") 0 in
  let s := sample_store sample_ps sample_ws in
  (holds s o sample_ps sample_ws
   ∧ make_tf_config o s = (Ok (Config sample_config), sample_after))
  ∧ ∃ ps1 ws1 c' s2,
    holds sample_after o ps1 ws1
    ∧ make_tf_config o sample_after = (Ok (Config c'), s2)
    ∧ task c' = task sample_config
    ∧ holds s2 o ps1 ws1.
Proof.
  intros o s.
  assert (holds s o sample_ps sample_ws) as H1 by apply sample_holds.
  assert (make_tf_config o s = (Ok (Config sample_config), sample_after)) as H2
    by apply sample_run.
  split; [done|].
  exact (make_tf_config_twice o s sample_ps sample_ws _ _ H1 H2).
Defined.

(** ** From the arguments to the dictionary *)

Lemma TF_CONFIG_run ns s :
  TF_CONFIG ns s = match parse_args ns s with
                   | (Ok o, s0) => make_tf_config o s0
                   | (Raise e, s0) => (Raise e, s0)
                   end.
Proof. reflexivity. Qed.

Lemma host_list_truthy text : truthy (host_list text) = str_truthy text.
Proof.
  unfold host_list. destruct text as [|c text]; [done|]. cbn [str_truthy].
  pose proof (split_nonempty "," (String c text)).
  by destruct (split _ _).
Qed.

Lemma parse_args_is_set ns s o s0 f :
  parse_args ns s = (Ok o, s0) →
  is_set o (host_list (ns_ps_hosts ns)) (host_list (ns_worker_hosts ns)) f
  = given ns f.
Proof.
  rewrite parse_args_run. destruct (comprehension _ _); [|done].
  cbn zeta. intros [= <- <-]. destruct f; cbn [is_set given job_name];
    by rewrite ?host_list_truthy.
Qed.

Lemma parse_args_log ns s : log (parse_args ns s).2 = log s.
Proof. rewrite parse_args_run. by destruct (comprehension _ _). Qed.

Lemma given_cases ns :
  (∀ f, given ns f = false)
  ∨ ((∃ f, given ns f = true) ∧ (∃ f, given ns f = false))
  ∨ (∀ f, given ns f = true).
Proof.
  destruct (given ns JobName) eqn:Hj, (given ns PsHosts) eqn:Hp,
    (given ns WorkerHosts) eqn:Hw.
  1: right; right; by intros [| |].
  7: left; by intros [| |].
  all: right; left; split; eauto.
Qed.

(** X14: once the arguments are parsed, the script warns exactly when some
    but not all of [job_name], [ps_hosts] and [worker_hosts] are given:
    with all three or none of them the log is as before. *)
Theorem TF_CONFIG_warns_iff ns s :
  returns (parse_args ns) s →
  log (TF_CONFIG ns s).2 ≠ log s
  ↔ (∃ f, given ns f = true) ∧ (∃ f, given ns f = false).
Proof.
  intros [o Ho]. rewrite TF_CONFIG_run.
  pose proof (parse_args_log ns s) as Hlog.
  destruct (parse_args ns s) as [r s0] eqn:Hrun. cbn in Ho, Hlog. subst r.
  pose proof (parse_args_holds _ _ _ _ Hrun) as Hh.
  fold (host_list (ns_ps_hosts ns)) in Hh.
  fold (host_list (ns_worker_hosts ns)) in Hh.
  set (ps := host_list (ns_ps_hosts ns)) in *.
  set (ws := host_list (ns_worker_hosts ns)) in *.
  pose proof (λ f, parse_args_is_set _ _ _ _ f Hrun) as Hset.
  fold ps ws in Hset. pose proof Hh as (Hps & Hws & _).
  destruct (given_cases ns) as [Hg|[[Hg1 Hg2]|Hg]].
  - assert (unset o ps ws) as Hu by (intros f; by rewrite Hset).
    destruct (unset_inv _ _ _ Hu) as (Hj & Hp0 & Hw0).
    rewrite Hp0 in Hps. rewrite Hw0 in Hws.
    rewrite make_tf_config_unset by done. split; [done|].
    intros [[f Hf] _]. rewrite Hg in Hf. done.
  - assert (¬ unset o ps ws) as Hu.
    { intros Hu. destruct Hg1 as [f Hf]. specialize (Hu f).
      rewrite Hset in Hu. congruence. }
    assert (¬ complete o ps ws) as Hc.
    { intros Hc. destruct Hg2 as [f Hf]. specialize (Hc f).
      rewrite Hset in Hc. congruence. }
    rewrite (make_tf_config_incomplete o s0 ps ws) by done. cbn [snd log].
    split; [done|]. intros _ Heq. rewrite <- Hlog in Heq.
    apply (f_equal length) in Heq. rewrite length_app in Heq.
    unfold warnings in Heq. cbn [app length] in Heq. lia.
  - assert (complete o ps ws) as Hc by (intros f; by rewrite Hset).
    rewrite (complete_log o s0 ps ws) by done. split; [done|].
    intros [_ [f Hf]]. rewrite Hg in Hf. done.
Qed.

Lemma TF_CONFIG_warns_iff_witness :
  returns (parse_args sample_ns) (State ∅ [])
  ∧ (log (TF_CONFIG sample_ns (State ∅ [])).2 ≠ log (State ∅ [])
     ↔ (∃ f, given sample_ns f = true) ∧ (∃ f, given sample_ns f = false)).
Proof.
  assert (returns (parse_args sample_ns) (State ∅ [])) as H1.
  { exists (sample_opts (Some "worker") 0). by rewrite parse_args_sample. }
  split; [done|]. exact (TF_CONFIG_warns_iff sample_ns (State ∅ []) H1).
Defined.

(** X15: the script ends up with the empty dictionary, that is in
    single-instance mode, exactly when the arguments are parsed and at
    least one of [job_name], [ps_hosts] and [worker_hosts] is not given. *)
Theorem TF_CONFIG_empty_iff ns s :
  (TF_CONFIG ns s).1 = Ok Empty
  ↔ returns (parse_args ns) s ∧ ∃ f, given ns f = false.
Proof.
  rewrite TF_CONFIG_run. unfold returns.
  destruct (parse_args ns s) as [[o|e] s0] eqn:Hrun; cbn [fst].
  2: { split; [done|]. by intros [[? ?] _]. }
  pose proof (parse_args_holds _ _ _ _ Hrun) as Hh.
  fold (host_list (ns_ps_hosts ns)) in Hh.
  fold (host_list (ns_worker_hosts ns)) in Hh.
  set (ps := host_list (ns_ps_hosts ns)) in *.
  set (ws := host_list (ns_worker_hosts ns)) in *.
  pose proof (λ f, parse_args_is_set _ _ _ _ f Hrun) as Hset.
  fold ps ws in Hset. pose proof Hh as (Hps & Hws & _).
  destruct (given_cases ns) as [Hg|[[Hg1 Hg2]|Hg]].
  - assert (unset o ps ws) as Hu by (intros f; by rewrite Hset).
    destruct (unset_inv _ _ _ Hu) as (Hj & Hp0 & Hw0).
    rewrite Hp0 in Hps. rewrite Hw0 in Hws.
    rewrite make_tf_config_unset by done. split; [|done].
    intros _. split; [by eexists|]. exists JobName. apply Hg.
  - assert (¬ unset o ps ws) as Hu.
    { intros Hu. destruct Hg1 as [f Hf]. specialize (Hu f).
      rewrite Hset in Hu. congruence. }
    assert (¬ complete o ps ws) as Hc.
    { intros Hc. destruct Hg2 as [f Hf]. specialize (Hc f).
      rewrite Hset in Hc. congruence. }
    rewrite (make_tf_config_incomplete o s0 ps ws) by done.
    split; [|done]. intros _. split; [by eexists|done].
  - assert (complete o ps ws) as Hc by (intros f; by rewrite Hset).
    destruct (complete_inv _ _ _ Hc) as ([j Hj] & Hp & Hw).
    rewrite (make_tf_config_complete o s0 ps ws j) by done. cbn zeta.
    split.
    + intros H. exfalso. repeat case_match; done.
    + intros [_ [f Hf]]. rewrite Hg in Hf. done.
Qed.

(** ** The layers of [cnn_net] *)

Lemma str_inj i j : str i = str j → i = j.
Proof.
  unfold str. intros H.
  assert (Nat.to_uint i = Nat.to_uint j) as Hu.
  { apply (f_equal NilEmpty.uint_of_string) in H.
    rewrite !NilEmpty.usu in H. by injection H. }
  apply (f_equal Nat.of_uint) in Hu. by rewrite !Unsigned.of_to in Hu.
Qed.

Lemma conv_loop_convolutions {float} rejects (k : Z) (d : float) i hidden t :
  ∃ n, (n ≤ length hidden)%nat
       ∧ convolutions (conv_loop rejects k d i hidden t).1
         = convolutions t
           ++ take n (imap (λ j u, (u, k, "cnn" +:+ str (i + j))) hidden)
       ∧ ((conv_loop rejects k d i hidden t).2 = None → n = length hidden).
Proof.
  revert i t. induction hidden as [|u rest IH]; intros i t; cbn [conv_loop].
  - exists 0%nat. cbn. by rewrite app_nil_r.
  - unfold call.
    destruct (rejects (conv2d t u k (2, 2) relu ("cnn" +:+ str i))) as [e|].
    { exists 0%nat. cbn. rewrite app_nil_r. split; [lia|done]. }
    destruct (rejects (dropout (conv2d t u k (2, 2) relu ("cnn" +:+ str i)) d))
      as [e|].
    { exists 1%nat. cbn [fst snd convolutions imap take length].
      rewrite Nat.add_0_r. split; [lia|done]. }
    destruct (IH (S i) (dropout (conv2d t u k (2, 2) relu ("cnn" +:+ str i)) d))
      as (n & Hn & Hc & Hnone).
    exists (S n). split; [cbn; lia|]. split.
    + rewrite Hc. cbn [convolutions imap take]. rewrite <- app_assoc.
      cbn [app]. rewrite Nat.add_0_r. do 3 f_equal. apply imap_ext.
      intros j x _. cbn [compose]. by rewrite Nat.add_succ_r.
    + intros H. cbn. by rewrite Hnone.
Qed.

Lemma cnn_net_prefix {float} rejects x opts (k : Z) (d : float) :
  ∃ n, (n ≤ length (hidden_units opts))%nat
       ∧ convolutions (cnn_net rejects (feed x) opts k d).1
         = take n (conv_specs k (hidden_units opts))
       ∧ ((cnn_net rejects (feed x) opts k d).2 = None
          → n = length (hidden_units opts)).
Proof.
  unfold cnn_net, conv_specs, call.
  destruct (rejects (reshape (feed x) [-1; 28; 28; 1] "input_image")) as [e|].
  { exists 0%nat. split; [lia|done]. }
  destruct (conv_loop_convolutions rejects k d 0 (hidden_units opts)
              (reshape (feed x) [-1; 28; 28; 1] "input_image"))
    as (n & Hn & Hc & Hnone).
  cbn [convolutions app Nat.add] in Hc.
  destruct (conv_loop rejects k d 0 (hidden_units opts)
              (reshape (feed x) [-1; 28; 28; 1] "input_image"))
    as [temp [e|]]; cbn [fst snd] in *.
  { exists n. done. }
  exists n. split; [done|]. split; [|by intros _; apply Hnone].
  repeat case_match; by simplify_eq.
Qed.

Lemma conv_specs_names k hidden : NoDup (snd <$> conv_specs k hidden).
Proof.
  unfold conv_specs. apply NoDup_alt. intros i j name.
  rewrite !list_lookup_fmap, !list_lookup_imap.
  destruct (hidden !! i) as [ni|]; [|done].
  destruct (hidden !! j) as [nj|]; [|done].
  cbn. intros [= <-] [= H]. apply str_inj.
  cbv [String.append] in H. by simplify_eq.
Qed.

(** X16: the convolutions of the graph [cnn_net] builds are those asked
    for by [hidden_units], in order: the one at position [i] has
    [hidden_units[i]] filters, the kernel size of [opts] and the name
    ['cnn'] followed by [i] in decimal.  When TensorFlow raises on the
    way, the graph holds the first few of them; when [cnn_net] returns, it
    holds them all. *)
Theorem cnn_net_convolutions {float} rejects x opts (k : Z) (d : float) :
  (∃ n, convolutions (cnn_net rejects (feed x) opts k d).1
        = take n (conv_specs k (hidden_units opts)))
  ∧ ((cnn_net rejects (feed x) opts k d).2 = None →
     convolutions (cnn_net rejects (feed x) opts k d).1
     = conv_specs k (hidden_units opts)).
Proof.
  destruct (cnn_net_prefix rejects x opts k d) as (n & Hn & Hc & Hnone).
  split; [by exists n|]. intros H. rewrite Hc, (Hnone H).
  apply take_ge. unfold conv_specs. by rewrite length_imap.
Qed.

Lemma cnn_net_convolutions_witness :
  let o := sample_opts (Some "worker") 0 in
  let run := cnn_net (λ _ : tensor unit, None) (feed "features") o 3 tt in
  run.2 = None
  ∧ (∃ n, convolutions run.1 = take n (conv_specs 3 (hidden_units o)))
  ∧ (run.2 = None → convolutions run.1 = conv_specs 3 (hidden_units o)).
Proof.
  intros o run. split; [reflexivity|].
  exact (cnn_net_convolutions (λ _ : tensor unit, None) "features" o 3 tt).
Defined.

(** X17: the convolutions in the graph [cnn_net] builds have pairwise
    different names, whether it returns or TensorFlow raises on the way. *)
Theorem cnn_net_names_distinct {float} rejects x opts (k : Z) (d : float) :
  NoDup (snd <$> convolutions (cnn_net rejects (feed x) opts k d).1).
Proof.
  destruct (cnn_net_prefix rejects x opts k d) as (n & _ & -> & _).
  rewrite fmap_take.
  apply (sublist_NoDup _ (snd <$> conv_specs k (hidden_units opts)));
    [apply conv_specs_names|apply sublist_take].
Qed.

(** X18: with the configuration [parse_args] returns, the graph of
    [cnn_net] never has more convolutions than the hidden-units text has
    comma-separated parts, and when [cnn_net] returns it has exactly one
    for each part, so at least one. *)
Theorem cnn_net_after_parse_args {float} rejects ns s o s' x (k : Z) (d : float) :
  parse_args ns s = (Ok o, s') →
  (length (convolutions (cnn_net rejects (feed x) o k d).1)
   ≤ length (split "," (ns_hidden_units ns)))%nat
  ∧ ((cnn_net rejects (feed x) o k d).2 = None →
     length (convolutions (cnn_net rejects (feed x) o k d).1)
     = length (split "," (ns_hidden_units ns))
     ∧ (1 ≤ length (convolutions (cnn_net rejects (feed x) o k d).1))%nat).
Proof.
  intros Hrun. rewrite parse_args_run in Hrun.
  destruct (comprehension _ _) as [hu|] eqn:Hhu; [|done].
  cbn zeta in Hrun. injection Hrun as <- _.
  apply comprehension_ok, Forall2_length in Hhu.
  pose proof (split_nonempty "," (ns_hidden_units ns)) as Hne.
  destruct (cnn_net_prefix rejects x
              {| job_name := ns_job_name ns; task_index := ns_task_index ns;
                 ps_hosts := fresh (dom (<[fresh (dom (heap s)) :=
                                host_list (ns_worker_hosts ns)]> (heap s)));
                 worker_hosts := fresh (dom (heap s));
                 hidden_units := hu |} k d) as (n & Hn & Hc & Hnone).
  cbn [hidden_units] in *. rewrite Hc.
  assert (length (conv_specs k hu) = length hu) as Hlen
    by (unfold conv_specs; by rewrite length_imap).
  rewrite length_take, Hlen, Hhu. split; [lia|].
  intros H. specialize (Hnone H). subst n.
  destruct (split "," (ns_hidden_units ns)); [done|]. cbn [length] in *. lia.
Qed.

Lemma cnn_net_after_parse_args_witness :
  let o := sample_opts (Some "worker") 0 in
  let run := cnn_net (λ _ : tensor unit, None) (feed "features") o 3 tt in
  parse_args sample_ns (State ∅ []) = (Ok o, sample_store sample_ps sample_ws)
  ∧ run.2 = None
  ∧ (length (convolutions run.1)
     ≤ length (split "," (ns_hidden_units sample_ns)))%nat
  ∧ (run.2 = None →
     length (convolutions run.1) = length (split "," (ns_hidden_units sample_ns))
     ∧ (1 ≤ length (convolutions run.1))%nat).
Proof.
  intros o run. split; [apply parse_args_sample|]. split; [reflexivity|].
  exact (cnn_net_after_parse_args (λ _ : tensor unit, None) sample_ns
           (State ∅ []) _ _ "features" 3 tt parse_args_sample).
Defined.

(** ** Well-formed arguments give a dictionary *)

Lemma norm_index_nonneg n i :
  0 ≤ i < Z.of_nat n → norm_index n i = Some (Z.to_nat i).
Proof.
  intros [? ?]. unfold norm_index.
  destruct (Z.leb_spec 0 i); [|lia].
  by destruct (Z.ltb_spec i (Z.of_nat n)); [|lia].
Qed.

(** X19: when the arguments are parsed, all three distributed settings are
    given, [job_name] is ['worker'] or ['ps'], [task_index] is a position
    in the host list of that role and every entry of that list contains a
    [':'], the script gets a non-empty dictionary: its task index is
    [task_index] and its task type is ['master'] for worker 0 and
    [job_name] otherwise. *)
Theorem TF_CONFIG_returns_dictionary ns s j l :
  returns (parse_args ns) s →
  (∀ f, given ns f = true) →
  ns_job_name ns = Some j →
  (j = "worker" ∧ l = host_list (ns_worker_hosts ns)
   ∨ j = "ps" ∧ l = host_list (ns_ps_hosts ns)) →
  0 ≤ ns_task_index ns < Z.of_nat (length l) →
  (∀ e, e ∈ l → contains ":" e = true) →
  ∃ c s',
    TF_CONFIG ns s = (Ok (Config c), s')
    ∧ index (task c) = ns_task_index ns
    ∧ type (task c)
      = (if bool_decide (j = "worker") && bool_decide (ns_task_index ns = 0)
         then Some "master" else Some j).
Proof.
  intros [o Ho] Hg Hjn Hl Hi Hcolon. rewrite TF_CONFIG_run.
  destruct (parse_args ns s) as [r s0] eqn:Hrun. cbn in Ho. subst r.
  pose proof (parse_args_holds _ _ _ _ Hrun) as Hh.
  fold (host_list (ns_ps_hosts ns)) in Hh.
  fold (host_list (ns_worker_hosts ns)) in Hh.
  set (ps := host_list (ns_ps_hosts ns)) in *.
  set (ws := host_list (ns_worker_hosts ns)) in *.
  pose proof (λ f, parse_args_is_set _ _ _ _ f Hrun) as Hset.
  fold ps ws in Hset.
  assert (complete o ps ws) as Hc by (intros f; by rewrite Hset).
  destruct (complete_inv _ _ _ Hc) as (_ & Hp & Hw).
  assert (job_name o = Some j ∧ task_index o = ns_task_index ns) as [Hj Hix].
  { rewrite parse_args_run in Hrun. destruct (comprehension _ _); [|done].
    cbn zeta in Hrun. injection Hrun as <- _. by cbn. }
  pose proof (make_tf_config_complete o s0 ps ws j Hh Hj Hp Hw) as Hmk.
  cbn zeta in Hmk.
  assert (∃ r, role o (fresh (dom (heap s0))) ps ws j = Some (r, l))
    as [r Hr].
  { unfold role. destruct Hl as [[-> ->]|[-> ->]].
    - rewrite decide_False, decide_True by done. by eexists.
    - rewrite !decide_False, decide_True by done. by eexists. }
  rewrite Hr, Hix, (norm_index_nonneg _ _ Hi) in Hmk.
  destruct (l !! Z.to_nat (ns_task_index ns)) as [e|] eqn:He.
  2: { apply lookup_ge_None in He. lia. }
  destruct (proj2 (port_contains e)) as [p Hport].
  { apply Hcolon. by eapply list_elem_of_lookup_2. }
  rewrite Hport in Hmk. rewrite Hmk.
  destruct (bool_decide (j = "worker") && bool_decide (ns_task_index ns = 0));
    eexists _, _; (split; [reflexivity|]); cbn; by rewrite ?Hj.
Qed.

Lemma TF_CONFIG_returns_dictionary_witness :
  (returns (parse_args sample_ns) (State ∅ [])
   ∧ (∀ f, given sample_ns f = true)
   ∧ ns_job_name sample_ns = Some "worker"
   ∧ ("worker" = "worker" ∧ sample_ws = host_list (ns_worker_hosts sample_ns)
      ∨ "worker" = "ps" ∧ sample_ws = host_list (ns_ps_hosts sample_ns))
   ∧ 0 ≤ ns_task_index sample_ns < Z.of_nat (length sample_ws)
   ∧ (∀ e, e ∈ sample_ws → contains ":" e = true))
  ∧ ∃ c s',
    TF_CONFIG sample_ns (State ∅ []) = (Ok (Config c), s')
    ∧ index (task c) = ns_task_index sample_ns
    ∧ type (task c)
      = (if bool_decide ("worker" = "worker")
            && bool_decide (ns_task_index sample_ns = 0)
         then Some "master" else Some "worker").
Proof.
  assert (returns (parse_args sample_ns) (State ∅ [])) as H1.
  { exists (sample_opts (Some "worker") 0). by rewrite parse_args_sample. }
  assert (∀ f, given sample_ns f = true) as H2 by (by intros [| |]).
  assert (ns_job_name sample_ns = Some "worker") as H3 by reflexivity.
  assert ("worker" = "worker" ∧ sample_ws = host_list (ns_worker_hosts sample_ns)
          ∨ "worker" = "ps" ∧ sample_ws = host_list (ns_ps_hosts sample_ns))
    as H4 by (left; split; reflexivity).
  assert (0 ≤ ns_task_index sample_ns < Z.of_nat (length sample_ws)) as H5
    by (cbn; lia).
  assert (∀ e, e ∈ sample_ws → contains ":" e = true) as H6.
  { intros e He. unfold sample_ws in He.
    rewrite !elem_of_cons, elem_of_nil in He. by destruct He as [->|[->|[]]]. }
  split; [done|].
  exact (TF_CONFIG_returns_dictionary sample_ns (State ∅ []) "worker" sample_ws
           H1 H2 H3 H4 H5 H6).
Defined.
